(** * AD-HTC Nexus: the thermodynamic model [run_simulation] of [app.py]

    The simulation function is straight-line floating-point code.  It is
    embedded here in exact arithmetic: a Python [float] is a real number,
    [+ - *] are the operations of [R], and the three operations that can
    leave the floats ([/], [**], and nothing else in this function) return
    in an error monad.  Rounding, overflow, NaN and signed zeros are
    outside this reading. *)

From Stdlib Require Import Reals Lra Psatz List.
Import ListNotations.

Local Open Scope R_scope.

(** ** Python's float operations, read over the reals *)

Module Py.

Inductive exn : Set :=
| ZeroDivisionError   (* [x / 0.0], [0.0 ** negative] *)
| ComplexResult.      (* [negative ** non-integer] is a [complex], not a float *)

Inductive result (A : Type) : Type :=
| Ok (a : A)
| Raise (e : exn).

Arguments Ok {A} a.
Arguments Raise {A} e.

Definition bind {A B : Type} (c : result A) (k : A -> result B) : result B :=
  match c with
  | Ok a => k a
  | Raise e => Raise e
  end.

(** [x / y] on floats. *)
Definition truediv (x y : R) : result R :=
  if Req_dec_T y 0 then Raise ZeroDivisionError else Ok (x / y).

(** [x ** y] on floats ([float_pow]): [y == 0] gives [1.0]; a zero base
    gives [0.0], or raises for a negative exponent; a positive base is
    the real power.  Every exponent of [run_simulation] is a non-integer
    constant, for which a negative base yields a [complex]. *)
Definition pow (x y : R) : result R :=
  if Req_dec_T y 0 then Ok 1
  else if Req_dec_T x 0 then
         (if Rlt_dec y 0 then Raise ZeroDivisionError else Ok 0)
  else if Rlt_dec 0 x then Ok (Rpower x y)
  else Raise ComplexResult.

(** The builtin [max(a, b)]: the first argument stays unless the second
    is strictly greater. *)
Definition max (a b : R) : R := if Rlt_dec a b then b else a.

End Py.

Import Py.

Declare Scope py_scope.
Delimit Scope py_scope with py.
Notation "x <- c ;; k" := (Py.bind c (fun x => k))
  (at level 61, c at next level, right associativity) : py_scope.
Notation "x /! y" := (Py.truediv x y) (at level 40, left associativity) : py_scope.
Notation "x ** y" := (Py.pow x y) (at level 30, right associativity) : py_scope.
Local Open Scope py_scope.

(** ** Data model *)

(** The ten sidebar inputs, under the keys of the ["inputs"] echo. *)
Module Inputs.
Record t : Set := mk {
  m_biomass : R;      (* kg/s *)
  MC : R;             (* moisture fraction *)
  LHV_MJkg : R;       (* MJ/kg, dry basis *)
  boiler_p : R;       (* MPa *)
  boiler_T : R;       (* deg C *)
  cond_p : R;         (* MPa *)
  rp : R;             (* compressor pressure ratio *)
  eta_comp : R;
  eta_turbine : R;
  T3 : R              (* K *)
}.
End Inputs.

(** The [results] dictionary, one field per key. *)
Record Results : Set := mkResults {
  m_dry : R;
  m_moisture : R;
  Q_in_Brayton : R;
  Q_in_Rankine : R;
  Q_fuel : R;
  Q_steam : R;
  W_comp : R;
  W_turb_brayton : R;
  W_turb_rankine : R;
  W_pump : R;
  W_net_brayton : R;
  eta_brayton : R;
  eta_rankine : R;
  eta_combined : R;
  brayton_power : R;
  rankine_power : R;
  total_power : R;
  fuel_consumption_kg_hr : R;
  useful_work : R;
  losses : R;
  gas_A : R;
  gas_B : R;
  methane : R;
  heating_energy : R;
  T1 : R; T2 : R; T3 : R; T4 : R;
  P1 : R; P2 : R;
  h1 : R; h2 : R; h3 : R; h4 : R;
  inputs : Inputs.t
}.

(** The documented input domain (the bounds of the sidebar widgets; the
    mass flow is taken on the whole of (0, 1000]). *)
Record in_domain (i : Inputs.t) : Prop := mk_in_domain {
  dom_m_biomass : 0 < Inputs.m_biomass i <= 1000;
  dom_MC : 0 <= Inputs.MC i <= 1;
  dom_LHV : 5 <= Inputs.LHV_MJkg i <= 30;
  dom_boiler_p : 0.1 <= Inputs.boiler_p i <= 30;
  dom_boiler_T : 200 <= Inputs.boiler_T i <= 700;
  dom_cond_p : 0.001 <= Inputs.cond_p i <= 1;
  dom_rp : 2 <= Inputs.rp i <= 20;
  dom_eta_comp : 0.5 <= Inputs.eta_comp i <= 1;
  dom_eta_turbine : 0.5 <= Inputs.eta_turbine i <= 1;
  dom_T3 : 800 <= Inputs.T3 i <= 2000
}.

(** ** The simulation function *)

(** [run_simulation], line by line.  A division by a non-zero literal
    ([/ gamma], [/ 8.0], [/ 1200.0], [/ 0.5], [/ 0.6], [/ 1.5]) cannot
    raise and is written [/]; every other division is [/!]. *)
Definition run_simulation
    (m_biomass MC LHV boiler_p boiler_T cond_p rp eta_comp eta_turbine T3 : R)
    : Py.result Results :=
  (* 1-2 mass splits *)
  let m_dry := m_biomass * (1 - MC) in
  let m_moisture := m_biomass * MC in
  (* 3-6 energy inputs *)
  let LHV_kJ := LHV * 1000.0 in
  let Q_in_Brayton := m_dry * LHV_kJ in
  (* Brayton cycle *)
  let gamma := 1.4 in
  let Cp := 1.005 in
  let R_gas := 0.287 in
  let T1 := 298.15 in
  let P1 := 0.1013 in
  let P2 := P1 * rp in
  pw2 <- rp ** ((gamma - 1) / gamma) ;;
  let T2s := T1 * pw2 in
  dT2 <- (T2s - T1) /! eta_comp ;;
  let T2 := T1 + dT2 in
  let W_comp_per_kg := Cp * (T2 - T1) in
  let AFR := 20.0 in
  let working_flow := Py.max 1.0 (AFR * m_dry) in
  let W_comp := W_comp_per_kg * working_flow in
  let Qin_per_kg := Cp * (T3 - T2) in
  let Qin_total := Qin_per_kg * working_flow in
  inv_rp <- 1 /! rp ;;
  pw4 <- inv_rp ** ((gamma - 1) / gamma) ;;
  let T4s := T3 * pw4 in
  let T4 := T3 - eta_turbine * (T3 - T4s) in
  let W_turbine_per_kg := Cp * (T3 - T4) in
  let W_turbine_brayton := W_turbine_per_kg * working_flow in
  let W_net_brayton := W_turbine_brayton - W_comp in
  eta_brayton <-
    (if Rlt_dec 0 Qin_total then W_net_brayton /! Qin_total else Ok 0.0) ;;
  (* Rankine cycle *)
  let v_f := 0.00101 in
  let W_pump_per_kg := v_f * (boiler_p - cond_p) * 1000.0 in
  let h1 :=
    if Rle_dec cond_p 0.01 then 191.8
    else if Rle_dec cond_p 0.02 then 251.4
    else 300.0 in
  let h2 := h1 + W_pump_per_kg in
  let h3 := 2800.0 + 2.0 * (boiler_T - 500.0) in
  let delta_h_isentropic := 1200.0 * (1.0 - 0.03 * (boiler_p - 8.0)) in
  let W_turbine_rankine_per_kg_isentropic := delta_h_isentropic in
  let W_turbine_rankine_per_kg_actual :=
    W_turbine_rankine_per_kg_isentropic * eta_turbine in
  let h4 := h3 - W_turbine_rankine_per_kg_actual in
  let h4 := if Rlt_dec h4 h1 then h1 + 50.0 else h4 in
  let Q_in_Rankine := m_moisture * (h3 - h2) in
  let W_turbine_rankine := m_moisture * (h3 - h4) in
  let W_pump := W_pump_per_kg * m_moisture in
  eta_rankine <-
    (if Rlt_dec 0 Q_in_Rankine
     then (W_turbine_rankine - W_pump) /! Q_in_Rankine else Ok 0.0) ;;
  (* combined cycle *)
  let total_input_energy := Q_in_Brayton + Q_in_Rankine in
  let total_output_work := Py.max 0.0 W_net_brayton + Py.max 0.0 W_turbine_rankine in
  eta_combined <-
    (if Rlt_dec 0 total_input_energy
     then total_output_work /! total_input_energy else Ok 0.0) ;;
  (* energy flow analysis *)
  let Q_fuel := Q_in_Brayton in
  let Q_steam := Q_in_Rankine in
  let useful_work := total_output_work in
  let losses := Q_fuel + Q_steam - useful_work in
  (* gas production *)
  a1 <- (rp / 8.0) ** 0.7 ;;
  a2 <- (T3 / 1200.0) ** 0.5 ;;
  let gas_A := 0.568 * a1 * a2 in
  b1 <- (rp / 8.0) ** 0.8 ;;
  b2 <- (T3 / 1200.0) ** 0.6 ;;
  let gas_B := 1.716 * b1 * b2 in
  c1 <- (T3 / 1200.0) ** 0.9 ;;
  c2 <- (eta_combined / 0.5) ** 0.3 ;;
  let methane := 1.029 * c1 * c2 in
  let heating_energy := 928106.3 * (eta_combined / 0.6) * (gas_B / 1.5) in
  (* derived power outputs *)
  let brayton_power := Py.max 0.0 W_net_brayton in
  let rankine_power := Py.max 0.0 (W_turbine_rankine - W_pump) in
  let total_power := brayton_power + rankine_power in
  (* fuel consumption *)
  m_fuel_kg_s <- (if Rlt_dec 0 LHV_kJ then Q_in_Brayton /! LHV_kJ else Ok 0.0) ;;
  let fuel_consumption_kg_hr := m_fuel_kg_s * 3600.0 in
  Ok {| m_dry := m_dry;
        m_moisture := m_moisture;
        Q_in_Brayton := Q_in_Brayton;
        Q_in_Rankine := Q_in_Rankine;
        Q_fuel := Q_fuel;
        Q_steam := Q_steam;
        W_comp := W_comp;
        W_turb_brayton := W_turbine_brayton;
        W_turb_rankine := W_turbine_rankine;
        W_pump := W_pump;
        W_net_brayton := W_net_brayton;
        eta_brayton := eta_brayton;
        eta_rankine := eta_rankine;
        eta_combined := eta_combined;
        brayton_power := brayton_power;
        rankine_power := rankine_power;
        total_power := total_power;
        fuel_consumption_kg_hr := fuel_consumption_kg_hr;
        useful_work := useful_work;
        losses := losses;
        gas_A := gas_A;
        gas_B := gas_B;
        methane := methane;
        heating_energy := heating_energy;
        T1 := T1; T2 := T2; T3 := T3; T4 := T4;
        P1 := P1; P2 := P2;
        h1 := h1; h2 := h2; h3 := h3; h4 := h4;
        inputs := {| Inputs.m_biomass := m_biomass; Inputs.MC := MC;
                     Inputs.LHV_MJkg := LHV; Inputs.boiler_p := boiler_p;
                     Inputs.boiler_T := boiler_T; Inputs.cond_p := cond_p;
                     Inputs.rp := rp; Inputs.eta_comp := eta_comp;
                     Inputs.eta_turbine := eta_turbine; Inputs.T3 := T3 |} |}.

(** The call of the page: the ten widgets, in the order of the signature. *)
Definition simulate (i : Inputs.t) : Py.result Results :=
  run_simulation (Inputs.m_biomass i) (Inputs.MC i) (Inputs.LHV_MJkg i)
                 (Inputs.boiler_p i) (Inputs.boiler_T i) (Inputs.cond_p i)
                 (Inputs.rp i) (Inputs.eta_comp i) (Inputs.eta_turbine i)
                 (Inputs.T3 i).

(** ** Locals of [run_simulation], read back from the result record *)

(** Exponent of the isentropic relations, [(gamma - 1) / gamma]. *)
Definition isentropic_exponent : R := (1.4 - 1) / 1.4.

(** [working_flow = max(1.0, AFR * m_dry)]. *)
Definition working_flow (r : Results) : R := Py.max 1.0 (20.0 * m_dry r).

(** [Qin_total = Cp * (T3 - T2) * working_flow], the denominator of
    [eta_brayton]. *)
Definition Qin_total (r : Results) : R :=
  1.005 * (T3 r - T2 r) * working_flow r.

(** [LHV_kJ = LHV * 1000.0]. *)
Definition LHV_kJ (i : Inputs.t) : R := Inputs.LHV_MJkg i * 1000.0.

(** [total_input_energy = Q_in_Brayton + Q_in_Rankine]. *)
Definition total_input_energy (r : Results) : R :=
  Q_in_Brayton r + Q_in_Rankine r.

(** [W_pump_per_kg = v_f * (boiler_p - cond_p) * 1000.0]. *)
Definition W_pump_per_kg (i : Inputs.t) : R :=
  0.00101 * (Inputs.boiler_p i - Inputs.cond_p i) * 1000.0.

(** [delta_h_isentropic = 1200.0 * (1.0 - 0.03 * (boiler_p - 8.0))]. *)
Definition delta_h_isentropic (i : Inputs.t) : R :=
  1200.0 * (1.0 - 0.03 * (Inputs.boiler_p i - 8.0)).

(** The first assignment of [h4], before the bounds check:
    [h3 - delta_h_isentropic * eta_turbine]. *)
Definition h4_uncorrected (i : Inputs.t) (r : Results) : R :=
  h3 r - delta_h_isentropic i * Inputs.eta_turbine i.

(** ** What a returned record contains *)

(** The equations between the inputs and the fields of a record that
    [run_simulation] returned, for any input whatever. *)
Record fields_ok (i : Inputs.t) (r : Results) : Prop := mk_fields_ok {
  ok_inputs : inputs r = i;
  ok_m_dry : m_dry r = Inputs.m_biomass i * (1 - Inputs.MC i);
  ok_m_moisture : m_moisture r = Inputs.m_biomass i * Inputs.MC i;
  ok_Q_in_Brayton : Q_in_Brayton r = m_dry r * LHV_kJ i;
  ok_T1 : T1 r = 298.15;
  ok_P1 : P1 r = 0.1013;
  ok_P2 : P2 r = P1 r * Inputs.rp i;
  ok_T2 : exists pw2,
      Inputs.rp i ** isentropic_exponent = Ok pw2 /\
      Inputs.eta_comp i <> 0 /\
      T2 r = T1 r + (T1 r * pw2 - T1 r) / Inputs.eta_comp i;
  ok_T3 : T3 r = Inputs.T3 i;
  ok_T4 : exists pw4,
      (1 / Inputs.rp i) ** isentropic_exponent = Ok pw4 /\
      Inputs.rp i <> 0 /\
      T4 r = T3 r - Inputs.eta_turbine i * (T3 r - T3 r * pw4);
  ok_W_comp : W_comp r = 1.005 * (T2 r - T1 r) * working_flow r;
  ok_W_turb_brayton : W_turb_brayton r = 1.005 * (T3 r - T4 r) * working_flow r;
  ok_W_net_brayton : W_net_brayton r = W_turb_brayton r - W_comp r;
  ok_eta_brayton :
    eta_brayton r =
    if Rlt_dec 0 (Qin_total r) then W_net_brayton r / Qin_total r else 0.0;
  ok_h1 :
    h1 r = if Rle_dec (Inputs.cond_p i) 0.01 then 191.8
           else if Rle_dec (Inputs.cond_p i) 0.02 then 251.4 else 300.0;
  ok_h2 : h2 r = h1 r + W_pump_per_kg i;
  ok_h3 : h3 r = 2800.0 + 2.0 * (Inputs.boiler_T i - 500.0);
  ok_h4 :
    h4 r = if Rlt_dec (h4_uncorrected i r) (h1 r) then h1 r + 50.0
           else h4_uncorrected i r;
  ok_Q_in_Rankine : Q_in_Rankine r = m_moisture r * (h3 r - h2 r);
  ok_W_turb_rankine : W_turb_rankine r = m_moisture r * (h3 r - h4 r);
  ok_W_pump : W_pump r = W_pump_per_kg i * m_moisture r;
  ok_eta_rankine :
    eta_rankine r =
    if Rlt_dec 0 (Q_in_Rankine r)
    then (W_turb_rankine r - W_pump r) / Q_in_Rankine r else 0.0;
  ok_useful_work :
    useful_work r = Py.max 0.0 (W_net_brayton r) + Py.max 0.0 (W_turb_rankine r);
  ok_eta_combined :
    eta_combined r =
    if Rlt_dec 0 (total_input_energy r)
    then useful_work r / total_input_energy r else 0.0;
  ok_Q_fuel : Q_fuel r = Q_in_Brayton r;
  ok_Q_steam : Q_steam r = Q_in_Rankine r;
  ok_losses : losses r = Q_fuel r + Q_steam r - useful_work r;
  ok_gas_A : exists a1 a2,
      (Inputs.rp i / 8.0) ** 0.7 = Ok a1 /\
      (Inputs.T3 i / 1200.0) ** 0.5 = Ok a2 /\
      gas_A r = 0.568 * a1 * a2;
  ok_gas_B : exists b1 b2,
      (Inputs.rp i / 8.0) ** 0.8 = Ok b1 /\
      (Inputs.T3 i / 1200.0) ** 0.6 = Ok b2 /\
      gas_B r = 1.716 * b1 * b2;
  ok_methane : exists c1 c2,
      (Inputs.T3 i / 1200.0) ** 0.9 = Ok c1 /\
      (eta_combined r / 0.5) ** 0.3 = Ok c2 /\
      methane r = 1.029 * c1 * c2;
  ok_heating_energy :
    heating_energy r = 928106.3 * (eta_combined r / 0.6) * (gas_B r / 1.5);
  ok_brayton_power : brayton_power r = Py.max 0.0 (W_net_brayton r);
  ok_rankine_power : rankine_power r = Py.max 0.0 (W_turb_rankine r - W_pump r);
  ok_total_power : total_power r = brayton_power r + rankine_power r;
  ok_fuel :
    fuel_consumption_kg_hr r =
    (if Rlt_dec 0 (LHV_kJ i) then Q_in_Brayton r / LHV_kJ i else 0.0) * 3600.0
}.

(** ** Operating points *)

(** The default values of the sidebar widgets. *)
Definition example_inputs : Inputs.t :=
  {| Inputs.m_biomass := 10.0; Inputs.MC := 0.25; Inputs.LHV_MJkg := 18.0;
     Inputs.boiler_p := 8.0; Inputs.boiler_T := 500.0; Inputs.cond_p := 0.01;
     Inputs.rp := 8.0; Inputs.eta_comp := 0.88; Inputs.eta_turbine := 0.85;
     Inputs.T3 := 1200.0 |}.

(** A cold gas turbine with poor machines: the compressor takes more work
    than the turbine returns. *)
Definition cold_inputs : Inputs.t :=
  {| Inputs.m_biomass := 10.0; Inputs.MC := 0.25; Inputs.LHV_MJkg := 18.0;
     Inputs.boiler_p := 8.0; Inputs.boiler_T := 500.0; Inputs.cond_p := 0.01;
     Inputs.rp := 2.0; Inputs.eta_comp := 0.5; Inputs.eta_turbine := 0.5;
     Inputs.T3 := 1000.0 |}.

(** Steam colder than the condenser table: outside the domain of
    [boiler_T], the one way to make the bounds check on [h4] fire. *)
Definition frozen_boiler_inputs : Inputs.t :=
  {| Inputs.m_biomass := 10.0; Inputs.MC := 0.25; Inputs.LHV_MJkg := 18.0;
     Inputs.boiler_p := 8.0; Inputs.boiler_T := -1000.0; Inputs.cond_p := 0.01;
     Inputs.rp := 8.0; Inputs.eta_comp := 0.88; Inputs.eta_turbine := 0.85;
     Inputs.T3 := 1200.0 |}.

(** The same inputs with another turbine inlet temperature. *)
Definition with_T3 (i : Inputs.t) (t : R) : Inputs.t :=
  {| Inputs.m_biomass := Inputs.m_biomass i; Inputs.MC := Inputs.MC i;
     Inputs.LHV_MJkg := Inputs.LHV_MJkg i; Inputs.boiler_p := Inputs.boiler_p i;
     Inputs.boiler_T := Inputs.boiler_T i; Inputs.cond_p := Inputs.cond_p i;
     Inputs.rp := Inputs.rp i; Inputs.eta_comp := Inputs.eta_comp i;
     Inputs.eta_turbine := Inputs.eta_turbine i; Inputs.T3 := t |}.

(** A compressor outlet hotter than the turbine inlet, and no moisture:
    the Brayton and the Rankine heat inputs are both non-positive. *)
Definition choked_inputs : Inputs.t :=
  {| Inputs.m_biomass := 10.0; Inputs.MC := 0; Inputs.LHV_MJkg := 18.0;
     Inputs.boiler_p := 8.0; Inputs.boiler_T := 500.0; Inputs.cond_p := 0.01;
     Inputs.rp := 20.0; Inputs.eta_comp := 0.5; Inputs.eta_turbine := 0.85;
     Inputs.T3 := 800.0 |}.

(** Hardly any fuel, so that the working flow sits on its floor of 1 kg/s
    while the fuel heat is 50 kW. *)
Definition tiny_flow_inputs : Inputs.t :=
  {| Inputs.m_biomass := 0.01; Inputs.MC := 0; Inputs.LHV_MJkg := 5.0;
     Inputs.boiler_p := 8.0; Inputs.boiler_T := 500.0; Inputs.cond_p := 0.01;
     Inputs.rp := 2.0; Inputs.eta_comp := 1; Inputs.eta_turbine := 1;
     Inputs.T3 := 2000.0 |}.

(** ** Physical range of an efficiency *)

(** A thermal efficiency is the fraction of the heat input returned as
    work: physically it lies between 0 and 1. *)
Definition sane_efficiency (e : R) : Prop := 0 <= e <= 1.

(** Each efficiency of a record is exactly 0 or in the physical range. *)
Definition efficiencies_sane (r : Results) : Prop :=
  (eta_rankine r = 0 \/ sane_efficiency (eta_rankine r)) /\
  (eta_brayton r = 0 \/ sane_efficiency (eta_brayton r)) /\
  (eta_combined r = 0 \/ sane_efficiency (eta_combined r)).

(** The same inputs with another biomass flow. *)
Definition with_m_biomass (i : Inputs.t) (m : R) : Inputs.t :=
  {| Inputs.m_biomass := m; Inputs.MC := Inputs.MC i;
     Inputs.LHV_MJkg := Inputs.LHV_MJkg i; Inputs.boiler_p := Inputs.boiler_p i;
     Inputs.boiler_T := Inputs.boiler_T i; Inputs.cond_p := Inputs.cond_p i;
     Inputs.rp := Inputs.rp i; Inputs.eta_comp := Inputs.eta_comp i;
     Inputs.eta_turbine := Inputs.eta_turbine i; Inputs.T3 := Inputs.T3 i |}.

(** ** The diagrams of the dashboard *)

(** The state points of the h-s diagram of the Rankine cycle,
    [(points_x, points_y)]; [boiler_p] and [eta_turbine] are the sidebar
    values the record was computed from. *)
Definition hs_points (i : Inputs.t) (r : Results) : list R * list R :=
  let pressure_factor := Inputs.boiler_p i / 8.0 in
  let s1 := 0.8 in
  let h1 := h1 r in
  let s2 := 0.85 in
  let h2 := h2 r in
  let s3 := 6.5 + 0.5 * (pressure_factor - 1) in
  let h3 := h3 r in
  let s4 := s3 + 0.8 * (1 - Inputs.eta_turbine i) in
  let h4 := h4 r in
  let points_x := [s1; s2; s3; s4; s1] in
  let points_y := [h1; h2; h3; h4; h1] in
  (points_x, points_y).

(** [np.log] on a float: a number for a positive argument; for zero or a
    negative argument numpy gives [-inf] or [nan], no finite value. *)
Definition np_log (x : R) : option R :=
  if Rlt_dec 0 x then Some (ln x) else None.

(** [np.log(a / b)]. *)
Definition log_ratio (a b : R) : option R :=
  match a /! b with
  | Ok q => np_log q
  | Raise _ => None
  end.

(** The markers of the T-s diagram of the Brayton cycle,
    [([s1, s2, s3, s4], [T1, T2, T3, T4])], when every entropy is a finite
    number. *)
Definition ts_points (r : Results) : option (list R * list R) :=
  let Cp_diag := 1.005 in
  let R_diag := 0.287 in
  let eps := 1e-9 in
  let T1 := Py.max (T1 r) eps in
  let T2 := Py.max (T2 r) eps in
  let T3 := Py.max (T3 r) eps in
  let T4 := Py.max (T4 r) eps in
  let P1 := Py.max (P1 r) eps in
  let P2 := Py.max (P2 r) eps in
  let s1 := 0 in
  match log_ratio T2 T1, log_ratio P2 P1, log_ratio T3 T2,
        log_ratio T4 T3, log_ratio P1 P2 with
  | Some lT21, Some lP21, Some lT32, Some lT43, Some lP12 =>
      let s2 := Cp_diag * lT21 - R_diag * lP21 in
      let s3 := s2 + Cp_diag * lT32 in
      let s4 := s3 + Cp_diag * lT43 - R_diag * lP12 in
      Some ([s1; s2; s3; s4], [T1; T2; T3; T4])
  | _, _, _, _, _ => None
  end.

(** * Properties *)

(** ** The operations of [Py] *)

Section PyFacts.

Lemma bind_Ok {A B} (a : A) (k : A -> Py.result B) : Py.bind (Ok a) k = k a.
Proof. reflexivity. Qed.

Lemma truediv_ok (x y : R) : y <> 0 -> x /! y = Ok (x / y).
Proof.
  intros Hy. unfold Py.truediv. destruct (Req_dec_T y 0); [contradiction | reflexivity].
Qed.

Lemma truediv_inv (x y q : R) : x /! y = Ok q -> y <> 0 /\ q = x / y.
Proof.
  unfold Py.truediv. destruct (Req_dec_T y 0); intros H; [discriminate |].
  injection H as <-. split; [assumption | reflexivity].
Qed.

(** The idiom [w / q if q > 0 else 0.0] never raises. *)
Lemma guarded_div_ok (w q : R) :
  (if Rlt_dec 0 q then w /! q else Ok 0.0)
  = Ok (if Rlt_dec 0 q then w / q else 0.0).
Proof.
  destruct (Rlt_dec 0 q); [apply truediv_ok; lra | reflexivity].
Qed.

Lemma pow_pos_ok (x y : R) : 0 < x -> y <> 0 -> x ** y = Ok (Rpower x y).
Proof.
  intros Hx Hy. unfold Py.pow.
  destruct (Req_dec_T y 0); [contradiction |].
  destruct (Req_dec_T x 0); [lra |].
  destruct (Rlt_dec 0 x); [reflexivity | contradiction].
Qed.

Lemma pow_nonneg_ok (x y : R) :
  0 <= x -> 0 < y ->
  x ** y = Ok (if Req_dec_T x 0 then 0 else Rpower x y).
Proof.
  intros Hx Hy. unfold Py.pow.
  destruct (Req_dec_T y 0); [lra |].
  destruct (Req_dec_T x 0).
  - destruct (Rlt_dec y 0); [lra | reflexivity].
  - destruct (Rlt_dec 0 x); [reflexivity | lra].
Qed.

Lemma max_Rmax (a b : R) : Py.max a b = Rmax a b.
Proof.
  unfold Py.max, Rmax. destruct (Rlt_dec a b), (Rle_dec a b); lra.
Qed.

Lemma max_ge_l (a b : R) : a <= Py.max a b.
Proof. unfold Py.max. destruct (Rlt_dec a b); lra. Qed.

Lemma max_ge_r (a b : R) : b <= Py.max a b.
Proof. unfold Py.max. destruct (Rlt_dec a b); lra. Qed.

Lemma max_cases (a b : R) :
  (a < b /\ Py.max a b = b) \/ (b <= a /\ Py.max a b = a).
Proof. unfold Py.max. destruct (Rlt_dec a b); [left | right]; split; lra. Qed.

End PyFacts.

(** ** Powers *)

Section Powers.

Lemma isentropic_exponent_pos : 0 < isentropic_exponent.
Proof. unfold isentropic_exponent. lra. Qed.

Lemma Rpower_gt_1 (x y : R) : 1 < x -> 0 < y -> 1 < Rpower x y.
Proof.
  intros Hx Hy. rewrite <- (Rpower_O x) by lra. apply Rpower_lt; assumption.
Qed.

Lemma Rpower_inv_base (x y : R) : 0 < x -> Rpower (1 / x) y = / Rpower x y.
Proof.
  intros Hx. unfold Rpower, Rdiv. rewrite Rmult_1_l, ln_Rinv by assumption.
  replace (y * - ln x) with (- (y * ln x)) by ring. apply exp_Ropp.
Qed.

End Powers.

(** ** From a run to its equations *)

Section Execution.

Lemma bind_Raise {A B} (e : Py.exn) (k : A -> Py.result B) :
  Py.bind (Raise e) k = Raise e.
Proof. reflexivity. Qed.

(** One statement of the function: a guarded ratio is replaced by its
    value, any other fallible operation is split on its outcome. *)
Ltac step H :=
  cbv beta zeta in H;
  first
    [ rewrite guarded_div_ok, bind_Ok in H
    | match type of H with
      | Py.bind ?c _ = _ =>
          let E := fresh "E" in
          destruct c eqn:E;
          [ rewrite bind_Ok in H | rewrite bind_Raise in H; discriminate H ]
      end ].

Lemma simulate_inv (i : Inputs.t) (r : Results) :
  simulate i = Ok r -> fields_ok i r.
Proof.
  destruct i as [m_biomass MC LHV boiler_p boiler_T cond_p rp eta_comp eta_turbine T3].
  unfold simulate, run_simulation. cbn [Inputs.m_biomass Inputs.MC Inputs.LHV_MJkg
    Inputs.boiler_p Inputs.boiler_T Inputs.cond_p Inputs.rp Inputs.eta_comp
    Inputs.eta_turbine Inputs.T3].
  intros H. do 14 step H.
  cbv beta zeta in H. injection H as <-.
  apply truediv_inv in E0 as [Hc ->], E1 as [Hr ->].
  constructor; unfold Qin_total, working_flow, LHV_kJ, total_input_energy,
    W_pump_per_kg, h4_uncorrected, delta_h_isentropic, isentropic_exponent;
    cbn; try reflexivity.
  all: eauto 10.
Qed.

End Execution.

(** ** When the function returns *)

Section Totality.

Lemma guarded_ratio_nonneg (w q : R) :
  0 <= w -> 0 <= (if Rlt_dec 0 q then w / q else 0.0).
Proof.
  intros Hw. destruct (Rlt_dec 0 q); [| lra].
  apply Rmult_le_pos; [assumption |]. left. apply Rinv_0_lt_compat. assumption.
Qed.

Lemma max_sum_nonneg (a b : R) : 0 <= Py.max 0.0 a + Py.max 0.0 b.
Proof.
  pose proof (max_ge_l 0.0 a). pose proof (max_ge_l 0.0 b). lra.
Qed.

(** The only operations that can raise are the two powers of the
    pressure ratio, the division by the compressor efficiency, [1 / rp]
    and the powers of [T3 / 1200]: a positive pressure ratio, a non-zero
    compressor efficiency and a positive turbine inlet temperature are
    enough for a result. *)
Lemma simulate_returns (i : Inputs.t) :
  0 < Inputs.rp i -> Inputs.eta_comp i <> 0 -> 0 < Inputs.T3 i ->
  exists r, simulate i = Ok r.
Proof.
  destruct i as [m_biomass MC LHV boiler_p boiler_T cond_p rp eta_comp eta_turbine T3].
  cbn [Inputs.rp Inputs.eta_comp Inputs.T3]. intros Hrp Hec HT3.
  unfold simulate, run_simulation.
  cbn [Inputs.m_biomass Inputs.MC Inputs.LHV_MJkg
    Inputs.boiler_p Inputs.boiler_T Inputs.cond_p Inputs.rp Inputs.eta_comp
    Inputs.eta_turbine Inputs.T3].
  cbv beta zeta.
  rewrite (pow_pos_ok rp) by lra. rewrite bind_Ok; cbv beta.
  rewrite (truediv_ok _ eta_comp) by assumption. rewrite bind_Ok; cbv beta.
  rewrite (truediv_ok 1 rp) by lra. rewrite bind_Ok; cbv beta.
  rewrite (pow_pos_ok (1 / rp)) by (try apply Rdiv_lt_0_compat; lra).
  rewrite bind_Ok; cbv beta.
  do 3 (rewrite guarded_div_ok, bind_Ok; cbv beta).
  rewrite (pow_pos_ok (rp / 8.0) 0.7) by lra. rewrite bind_Ok; cbv beta.
  rewrite (pow_pos_ok (T3 / 1200.0) 0.5) by lra. rewrite bind_Ok; cbv beta.
  rewrite (pow_pos_ok (rp / 8.0) 0.8) by lra. rewrite bind_Ok; cbv beta.
  rewrite (pow_pos_ok (T3 / 1200.0) 0.6) by lra. rewrite bind_Ok; cbv beta.
  rewrite (pow_pos_ok (T3 / 1200.0) 0.9) by lra. rewrite bind_Ok; cbv beta.
  rewrite (pow_nonneg_ok _ 0.3);
    [ | apply Rmult_le_pos; [apply guarded_ratio_nonneg, max_sum_nonneg | lra] | lra ].
  rewrite bind_Ok; cbv beta.
  rewrite guarded_div_ok, bind_Ok; cbv beta.
  eexists. reflexivity.
Qed.

(** No operation of [run_simulation] raises on the documented domain. *)
Lemma simulate_total (i : Inputs.t) :
  in_domain i -> exists r, simulate i = Ok r.
Proof.
  intros D. destruct D. apply simulate_returns; lra.
Qed.

(** On the domain the record exists and satisfies the field equations. *)
Lemma simulate_in_domain (i : Inputs.t) :
  in_domain i -> exists r, simulate i = Ok r /\ fields_ok i r.
Proof.
  intros D. destruct (simulate_total i D) as [r Hr].
  exists r. split; [assumption | apply simulate_inv; assumption].
Qed.

End Totality.

(** ** Numeric bounds on [rp ** ((gamma - 1) / gamma)] *)

Section Roots.

Lemma isentropic_exponent_eq : isentropic_exponent = 2 * / 7.
Proof. unfold isentropic_exponent. lra. Qed.

Lemma Rpower_2 (a : R) : 0 < a -> Rpower a 2 = a ^ 2.
Proof.
  intros Ha. rewrite <- (Rpower_pow 2 a Ha). f_equal; simpl; lra.
Qed.

Lemma Rpower_7 (b : R) : 0 < b -> Rpower b 7 = b ^ 7.
Proof.
  intros Hb. rewrite <- (Rpower_pow 7 b Hb). f_equal; simpl; lra.
Qed.

Lemma Rpower_7_root (b : R) : 0 < b -> Rpower (Rpower b 7) (/ 7) = b.
Proof.
  intros Hb. rewrite Rpower_mult. replace (7 * / 7) with 1 by lra.
  apply Rpower_1. assumption.
Qed.

(** [a ** (2/7) < b] as soon as [a^2 < b^7]. *)
Lemma isentropic_power_lt (a b : R) :
  0 < a -> 0 < b -> a ^ 2 < b ^ 7 -> Rpower a isentropic_exponent < b.
Proof.
  intros Ha Hb Hab. rewrite isentropic_exponent_eq, <- Rpower_mult.
  rewrite <- (Rpower_7_root b Hb) at 1.
  apply Rlt_Rpower_l; [lra |].
  rewrite Rpower_2, Rpower_7 by assumption.
  split; [apply pow_lt; assumption | assumption].
Qed.

(** [b < a ** (2/7)] as soon as [b^7 < a^2]. *)
Lemma isentropic_power_gt (a b : R) :
  0 < a -> 0 < b -> b ^ 7 < a ^ 2 -> b < Rpower a isentropic_exponent.
Proof.
  intros Ha Hb Hab. rewrite isentropic_exponent_eq, <- Rpower_mult.
  rewrite <- (Rpower_7_root b Hb) at 1.
  apply Rlt_Rpower_l; [lra |].
  rewrite Rpower_2, Rpower_7 by assumption.
  split; [apply pow_lt; assumption | assumption].
Qed.

(** On the domain of the pressure ratio the temperature ratio of the
    compressor lies strictly between 1 and 2.5. *)
Lemma isentropic_ratio_bounds (rp : R) :
  2 <= rp <= 20 -> 1 < Rpower rp isentropic_exponent < 5 / 2.
Proof.
  intros [Hlo Hhi]. split.
  - apply Rpower_gt_1; [lra | apply isentropic_exponent_pos].
  - apply Rle_lt_trans with (Rpower 20 isentropic_exponent).
    + apply Rle_Rpower_l; [left; apply isentropic_exponent_pos | lra].
    + apply isentropic_power_lt; lra.
Qed.

End Roots.

(** ** The two cycles on the documented domain *)

Section Cycles.

Variables (i : Inputs.t) (r : Results).
Hypothesis D : in_domain i.
Hypothesis F : fields_ok i r.

(** [T2s / T1], the temperature ratio of the isentropic compression. *)
Let x := Rpower (Inputs.rp i) isentropic_exponent.

Lemma T2_in_domain :
  T2 r = 298.15 + (298.15 * x - 298.15) / Inputs.eta_comp i.
Proof.
  destruct (ok_T2 i r F) as (pw2 & E & _ & HT2).
  pose proof (dom_rp i D). pose proof isentropic_exponent_pos.
  rewrite pow_pos_ok in E by lra. injection E as <-.
  rewrite HT2, (ok_T1 i r F). reflexivity.
Qed.

Lemma T4_in_domain :
  T4 r = Inputs.T3 i - Inputs.eta_turbine i * (Inputs.T3 i - Inputs.T3 i / x).
Proof.
  destruct (ok_T4 i r F) as (pw4 & E & _ & HT4).
  pose proof (dom_rp i D). pose proof isentropic_exponent_pos.
  rewrite pow_pos_ok in E by (try apply Rdiv_lt_0_compat; lra).
  injection E as <-.
  rewrite HT4, (ok_T3 i r F), Rpower_inv_base by lra. reflexivity.
Qed.

Lemma m_moisture_nonneg : 0 <= m_moisture r.
Proof.
  rewrite (ok_m_moisture i r F). pose proof (dom_m_biomass i D). pose proof (dom_MC i D).
  apply Rmult_le_pos; lra.
Qed.

Lemma working_flow_pos : 1 <= working_flow r.
Proof. unfold working_flow. pose proof (max_ge_l 1.0 (20.0 * m_dry r)). lra. Qed.

(** The condenser enthalpy is one of the three table values. *)
Lemma h1_bounds : 191.8 <= h1 r <= 300.
Proof.
  rewrite (ok_h1 i r F).
  destruct (Rle_dec (Inputs.cond_p i) 0.01); [lra |].
  destruct (Rle_dec (Inputs.cond_p i) 0.02); lra.
Qed.

Lemma h3_bounds : 2200 <= h3 r <= 3200.
Proof. rewrite (ok_h3 i r F). pose proof (dom_boiler_T i D). lra. Qed.

(** The actual enthalpy drop of the steam turbine per unit mass. *)
Lemma rankine_drop_bounds :
  204 <= delta_h_isentropic i * Inputs.eta_turbine i <= 1484.4.
Proof.
  unfold delta_h_isentropic.
  pose proof (dom_boiler_p i D). pose proof (dom_eta_turbine i D). nra.
Qed.

Lemma W_pump_per_kg_bounds : -0.909 <= W_pump_per_kg i <= 30.3.
Proof.
  unfold W_pump_per_kg.
  pose proof (dom_boiler_p i D). pose proof (dom_cond_p i D). lra.
Qed.

(** The bounds check on [h4] never fires on the domain: the first value
    of [h4] already exceeds every table value of [h1] by far. *)
Lemma h4_not_clamped : h4 r = h4_uncorrected i r /\ h1 r + 415.6 <= h4 r.
Proof.
  pose proof h1_bounds. pose proof h3_bounds. pose proof rankine_drop_bounds.
  rewrite (ok_h4 i r F).
  destruct (Rlt_dec (h4_uncorrected i r) (h1 r)) as [Hlt | Hge];
    unfold h4_uncorrected in *; lra.
Qed.

Lemma rankine_drop_eq : h3 r - h4 r = delta_h_isentropic i * Inputs.eta_turbine i.
Proof. destruct h4_not_clamped as [-> _]. unfold h4_uncorrected. ring. Qed.

End Cycles.

(** ** The operating points and the domain *)

Section OperatingPoints.

Lemma example_in_domain : in_domain example_inputs.
Proof. constructor; cbn; lra. Qed.

Lemma cold_in_domain : in_domain cold_inputs.
Proof. constructor; cbn; lra. Qed.

Lemma frozen_boiler_returns : exists r, simulate frozen_boiler_inputs = Ok r.
Proof. apply simulate_returns; cbn; lra. Qed.

End OperatingPoints.

(** ** Mass split and fuel consumption *)

(** C7: on the domain the record is returned with
    [m_dry = m_biomass * (1 - MC)], [m_moisture = m_biomass * MC], and the
    two add up to the biomass flow. *)
Theorem mass_split_conserved (i : Inputs.t) :
  in_domain i ->
  exists r, simulate i = Ok r /\
    m_dry r = Inputs.m_biomass i * (1 - Inputs.MC i) /\
    m_moisture r = Inputs.m_biomass i * Inputs.MC i /\
    m_dry r + m_moisture r = Inputs.m_biomass i.
Proof.
  intros D. destruct (simulate_in_domain i D) as (r & Hr & F).
  exists r. rewrite (ok_m_dry i r F), (ok_m_moisture i r F).
  repeat split; [assumption | ring].
Qed.

Lemma mass_split_conserved_witness :
  in_domain example_inputs /\
  exists r, simulate example_inputs = Ok r /\
    m_dry r = Inputs.m_biomass example_inputs * (1 - Inputs.MC example_inputs) /\
    m_moisture r = Inputs.m_biomass example_inputs * Inputs.MC example_inputs /\
    m_dry r + m_moisture r = Inputs.m_biomass example_inputs.
Proof.
  split; [constructor; cbn; lra | apply (mass_split_conserved example_inputs)].
  constructor; cbn; lra.
Defined.

Lemma mult_div_cancel (m d : R) : d <> 0 -> m * d / d = m.
Proof. intros Hd. field. assumption. Qed.

(** C5: on the domain the reported fuel consumption is the dry mass flow
    times 3600: dividing [Q_in_Brayton = m_dry * LHV_kJ] by [LHV_kJ] gives
    [m_dry] back. *)
Theorem fuel_consumption_is_dry_mass (i : Inputs.t) :
  in_domain i ->
  exists r, simulate i = Ok r /\
    Q_in_Brayton r = m_dry r * (Inputs.LHV_MJkg i * 1000) /\
    fuel_consumption_kg_hr r = m_dry r * 3600.
Proof.
  intros D. destruct (simulate_in_domain i D) as (r & Hr & F).
  exists r. split; [assumption |].
  pose proof (dom_LHV i D) as HL.
  rewrite (ok_fuel i r F), (ok_Q_in_Brayton i r F). unfold LHV_kJ.
  split; [lra |].
  destruct (Rlt_dec 0 (Inputs.LHV_MJkg i * 1000.0)) as [Hpos | Hneg]; [| lra].
  rewrite mult_div_cancel by lra. lra.
Qed.

Lemma fuel_consumption_is_dry_mass_witness :
  in_domain example_inputs /\
  exists r, simulate example_inputs = Ok r /\
    Q_in_Brayton r = m_dry r * (Inputs.LHV_MJkg example_inputs * 1000) /\
    fuel_consumption_kg_hr r = m_dry r * 3600.
Proof.
  split; [constructor; cbn; lra | apply (fuel_consumption_is_dry_mass example_inputs)].
  constructor; cbn; lra.
Defined.

(** ** The example scenario *)

(** C8: at the default widget values the record holds [m_dry = 7.5],
    [m_moisture = 2.5], [h1 = 191.8], [h3 = 2800.0] and the compressor
    outlet temperature [298.15 + (298.15 * 8^(0.4/1.4) - 298.15) / 0.88]. *)
Theorem example_scenario :
  exists r, simulate example_inputs = Ok r /\
    m_dry r = 7.5 /\
    m_moisture r = 2.5 /\
    h1 r = 191.8 /\
    h3 r = 2800.0 /\
    T2 r = 298.15 + (298.15 * Rpower 8 (0.4 / 1.4) - 298.15) / 0.88.
Proof.
  destruct (simulate_in_domain _ example_in_domain) as (r & Hr & F).
  exists r. split; [assumption |].
  rewrite (ok_m_dry _ r F), (ok_m_moisture _ r F), (ok_h1 _ r F), (ok_h3 _ r F),
    (T2_in_domain _ r example_in_domain F).
  cbn [example_inputs Inputs.m_biomass Inputs.MC Inputs.cond_p Inputs.boiler_T
       Inputs.rp Inputs.eta_comp].
  repeat split; try lra.
  - destruct (Rle_dec 0.01 0.01); lra.
  - unfold isentropic_exponent.
    replace 8.0 with 8 by lra.
    replace ((1.4 - 1) / 1.4) with (0.4 / 1.4) by lra.
    reflexivity.
Qed.

(** ** The bounds check on the turbine outlet enthalpy *)

(** C2: on the domain the returned [h4] is at least [h1 + 50]; and
    whenever a record is returned for which the first value of [h4],
    [h3 - delta_h_isentropic * eta_turbine], is below [h1], the returned
    [h4] is [h1 + 50.0] exactly. *)
Theorem h4_margin (i : Inputs.t) :
  (in_domain i -> exists r, simulate i = Ok r /\ h1 r + 50.0 <= h4 r) /\
  (forall r, simulate i = Ok r ->
     h3 r - Inputs.eta_turbine i * delta_h_isentropic i < h1 r ->
     h4 r = h1 r + 50.0).
Proof.
  split.
  - intros D. destruct (simulate_in_domain i D) as (r & Hr & F).
    exists r. split; [assumption |].
    destruct (h4_not_clamped i r D F) as [_ H]. lra.
  - intros r Hr Hlow. apply simulate_inv in Hr.
    rewrite (ok_h4 i r Hr). unfold h4_uncorrected.
    destruct (Rlt_dec (h3 r - delta_h_isentropic i * Inputs.eta_turbine i) (h1 r));
      [reflexivity | lra].
Qed.

(** The first half at the default point; the second at a point where the
    check does fire. *)
Lemma h4_margin_witness :
  (exists r, simulate example_inputs = Ok r /\ h1 r + 50.0 <= h4 r) /\
  (exists r, simulate frozen_boiler_inputs = Ok r /\ h4 r = 241.8).
Proof.
  split.
  - apply (proj1 (h4_margin example_inputs)). constructor; cbn; lra.
  - destruct frozen_boiler_returns as [r Hr]. exists r. split; [exact Hr |].
    pose proof (simulate_inv _ _ Hr) as F.
    assert (H1 : h1 r = 191.8).
    { rewrite (ok_h1 _ r F). cbn. destruct (Rle_dec 0.01 0.01); lra. }
    rewrite (proj2 (h4_margin frozen_boiler_inputs) r Hr).
    + lra.
    + rewrite (ok_h3 _ r F), H1. unfold delta_h_isentropic. cbn. lra.
Defined.

(** ** Guards *)

(** C4: on the domain [run_simulation] returns a record (no operation
    raises); and in every returned record a ratio whose denominator is not
    positive is 0: the Brayton efficiency for [Qin_total], the Rankine
    efficiency for [Q_in_Rankine], the combined efficiency for
    [total_input_energy], the fuel flow for [LHV_kJ]. *)
Theorem total_and_guarded (i : Inputs.t) :
  (in_domain i -> exists r, simulate i = Ok r) /\
  (forall r, simulate i = Ok r ->
     (Qin_total r <= 0 -> eta_brayton r = 0) /\
     (Q_in_Rankine r <= 0 -> eta_rankine r = 0) /\
     (total_input_energy r <= 0 -> eta_combined r = 0) /\
     (LHV_kJ i <= 0 -> fuel_consumption_kg_hr r = 0)).
Proof.
  split; [apply simulate_total |].
  intros r Hr. apply simulate_inv in Hr.
  rewrite (ok_eta_brayton i r Hr), (ok_eta_rankine i r Hr),
    (ok_eta_combined i r Hr), (ok_fuel i r Hr).
  repeat split; intros Hden.
  - destruct (Rlt_dec 0 (Qin_total r)); lra.
  - destruct (Rlt_dec 0 (Q_in_Rankine r)); lra.
  - destruct (Rlt_dec 0 (total_input_energy r)); lra.
  - destruct (Rlt_dec 0 (LHV_kJ i)); lra.
Qed.

Lemma choked_in_domain : in_domain choked_inputs.
Proof. constructor; cbn; lra. Qed.

Lemma choked_heat_inputs (r : Results) :
  simulate choked_inputs = Ok r -> Qin_total r <= 0 /\ Q_in_Rankine r <= 0.
Proof.
  intros Hr. pose proof (simulate_inv _ _ Hr) as F.
  pose proof (T2_in_domain _ r choked_in_domain F) as HT2.
  pose proof (working_flow_pos r) as Hwf.
  cbn [choked_inputs Inputs.rp Inputs.eta_comp] in HT2.
  assert (Hx : 1.85 < Rpower 20.0 isentropic_exponent)
    by (apply isentropic_power_gt; lra).
  split.
  - unfold Qin_total. rewrite (ok_T3 _ r F), HT2. cbn [choked_inputs Inputs.T3].
    assert (Hneg : 800.0 - (298.15 + (298.15 * Rpower 20.0 isentropic_exponent - 298.15) / 0.5) <= 0)
      by lra.
    nra.
  - rewrite (ok_Q_in_Rankine _ r F), (ok_m_moisture _ r F). cbn. lra.
Qed.

Lemma total_and_guarded_witness :
  exists r, simulate choked_inputs = Ok r /\
    Qin_total r <= 0 /\ eta_brayton r = 0 /\
    Q_in_Rankine r <= 0 /\ eta_rankine r = 0.
Proof.
  destruct (proj1 (total_and_guarded choked_inputs) choked_in_domain) as [r Hr].
  exists r. destruct (choked_heat_inputs r Hr) as [HB HR].
  destruct (proj2 (total_and_guarded choked_inputs) r Hr) as (GB & GR & _ & _).
  repeat split; auto.
Defined.

(** ** Output work and power *)

Section Work.

Lemma zero_literal : 0.0 = 0.
Proof. lra. Qed.

(** The Rankine terms at the default point. *)
Lemma example_rankine_work (r : Results) :
  simulate example_inputs = Ok r ->
  W_turb_rankine r = 2550 /\ W_pump r = 20.17475.
Proof.
  intros Hr. pose proof (simulate_inv _ _ Hr) as F.
  pose proof (rankine_drop_eq _ r example_in_domain F) as Hdrop.
  rewrite (ok_W_turb_rankine _ r F), (ok_W_pump _ r F), Hdrop, (ok_m_moisture _ r F).
  unfold delta_h_isentropic, W_pump_per_kg. cbn. lra.
Qed.

(** The steam turbine returns work as soon as there is steam. *)
Lemma W_turb_rankine_nonneg (i : Inputs.t) (r : Results) :
  in_domain i -> fields_ok i r ->
  0 <= W_turb_rankine r /\ (0 < m_moisture r -> 0 < W_turb_rankine r).
Proof.
  intros D F. pose proof (rankine_drop_eq i r D F) as Hdrop.
  pose proof (rankine_drop_bounds i D) as Hb.
  pose proof (m_moisture_nonneg i r D F) as Hm.
  rewrite (ok_W_turb_rankine i r F), Hdrop. split; [nra | intros Hpos; nra].
Qed.

End Work.

(** C1 (as the code has it): at the default point the record holds
    [useful_work = max(0, W_net_brayton) + max(0, W_turb_rankine)], the
    turbine work without the pump work, which is 20.17475 kW more than
    [max(0, W_net_brayton) + max(0, W_turb_rankine - W_pump)]. *)
Theorem useful_work_ignores_pump_work :
  exists r, simulate example_inputs = Ok r /\
    useful_work r = Py.max 0 (W_net_brayton r) + Py.max 0 (W_turb_rankine r) /\
    W_turb_rankine r = 2550 /\ W_pump r = 20.17475 /\
    useful_work r =
      Py.max 0 (W_net_brayton r) + Py.max 0 (W_turb_rankine r - W_pump r) + 20.17475 /\
    useful_work r <>
      Py.max 0 (W_net_brayton r) + Py.max 0 (W_turb_rankine r - W_pump r).
Proof.
  destruct (simulate_in_domain _ example_in_domain) as (r & Hr & F).
  exists r. destruct (example_rankine_work r Hr) as [Ht Hp].
  pose proof (ok_useful_work _ r F) as Hu. rewrite zero_literal in Hu.
  rewrite Hu, Ht, Hp.
  destruct (max_cases 0 2550) as [[_ ->] | [? _]]; [| lra].
  destruct (max_cases 0 (2550 - 20.17475)) as [[_ ->] | [? _]]; [| lra].
  repeat split; try assumption; lra.
Qed.

(** C9: on the domain the combined efficiency is not negative. *)
Theorem eta_combined_nonneg (i : Inputs.t) :
  in_domain i -> exists r, simulate i = Ok r /\ 0 <= eta_combined r.
Proof.
  intros D. destruct (simulate_in_domain i D) as (r & Hr & F).
  exists r. split; [assumption |].
  rewrite (ok_eta_combined i r F), (ok_useful_work i r F).
  apply guarded_ratio_nonneg, max_sum_nonneg.
Qed.

Lemma eta_combined_nonneg_witness :
  in_domain cold_inputs /\
  exists r, simulate cold_inputs = Ok r /\ 0 <= eta_combined r.
Proof.
  split; [constructor; cbn; lra | apply (eta_combined_nonneg cold_inputs)].
  constructor; cbn; lra.
Defined.

(** C10: on the domain [brayton_power] and [rankine_power] are not
    negative, [total_power] is their sum, [rankine_power] is
    [max(0, W_turb_rankine - W_pump)], and whenever the pump work is
    positive [total_power] is strictly below [useful_work]. *)
Theorem power_fields (i : Inputs.t) :
  in_domain i ->
  exists r, simulate i = Ok r /\
    0 <= brayton_power r /\ 0 <= rankine_power r /\
    total_power r = brayton_power r + rankine_power r /\
    rankine_power r = Py.max 0 (W_turb_rankine r - W_pump r) /\
    (0 < W_pump r -> total_power r < useful_work r).
Proof.
  intros D. destruct (simulate_in_domain i D) as (r & Hr & F).
  exists r. split; [assumption |].
  pose proof (ok_brayton_power i r F) as Hb.
  pose proof (ok_rankine_power i r F) as Hk.
  pose proof (ok_useful_work i r F) as Hu.
  rewrite zero_literal in Hb, Hk, Hu.
  pose proof (max_ge_l 0 (W_net_brayton r)).
  pose proof (max_ge_l 0 (W_turb_rankine r - W_pump r)).
  rewrite (ok_total_power i r F), Hu, Hb, Hk.
  repeat split; try assumption; try lra.
  intros Hpump.
  destruct (W_turb_rankine_nonneg i r D F) as [_ Hturb].
  assert (Hsteam : 0 < m_moisture r).
  { pose proof (m_moisture_nonneg i r D F) as [Hm | Hm]; [assumption |].
    rewrite (ok_W_pump i r F), <- Hm in Hpump. lra. }
  specialize (Hturb Hsteam).
  destruct (max_cases 0 (W_turb_rankine r - W_pump r)) as [[? ->] | [? ->]];
    destruct (max_cases 0 (W_turb_rankine r)) as [[? ->] | [? ->]]; lra.
Qed.

Lemma power_fields_witness :
  in_domain example_inputs /\
  exists r, simulate example_inputs = Ok r /\
    0 <= brayton_power r /\ 0 <= rankine_power r /\
    total_power r = brayton_power r + rankine_power r /\
    rankine_power r = Py.max 0 (W_turb_rankine r - W_pump r) /\
    (0 < W_pump r -> total_power r < useful_work r).
Proof.
  split; [constructor; cbn; lra | apply (power_fields example_inputs)].
  constructor; cbn; lra.
Defined.

(** ** Brayton net work *)

Section BraytonWork.

Lemma inv_ratio_bounds (x : R) : 1 < x -> 0 < / x < 1.
Proof.
  intros Hx. split; [apply Rinv_0_lt_compat; lra |].
  rewrite <- Rinv_1. apply Rinv_lt_contravar; lra.
Qed.

Lemma div_lt_1 (w q : R) : 0 < q -> w < q -> w / q < 1.
Proof.
  intros Hq Hw. apply (Rmult_lt_reg_r q); [assumption |].
  unfold Rdiv. rewrite Rmult_assoc, Rinv_l by lra. lra.
Qed.

Lemma div_neg (w q : R) : 0 < q -> w < 0 -> w / q < 0.
Proof.
  intros Hq Hw. apply (Rmult_lt_reg_r q); [assumption |].
  unfold Rdiv. rewrite Rmult_assoc, Rinv_l by lra. lra.
Qed.

Lemma div_gt_1 (w q : R) : 0 < q -> q < w -> 1 < w / q.
Proof.
  intros Hq Hw. apply (Rmult_lt_reg_r q); [assumption |].
  unfold Rdiv. rewrite Rmult_assoc, Rinv_l by lra. lra.
Qed.

(** Net work as a function of the inputs: the turbine term is linear in
    [T3], the compressor term does not depend on it. *)
Lemma W_net_brayton_in_domain (i : Inputs.t) (r : Results) :
  in_domain i -> fields_ok i r ->
  W_net_brayton r =
    1.005 * (Inputs.eta_turbine i
             * (Inputs.T3 i * (1 - / Rpower (Inputs.rp i) isentropic_exponent)))
          * working_flow r
    - 1.005 * ((298.15 * Rpower (Inputs.rp i) isentropic_exponent - 298.15)
               / Inputs.eta_comp i)
            * working_flow r.
Proof.
  intros D F.
  rewrite (ok_W_net_brayton i r F), (ok_W_turb_brayton i r F), (ok_W_comp i r F).
  rewrite (T4_in_domain i r D F), (T2_in_domain i r D F), (ok_T3 i r F), (ok_T1 i r F).
  unfold Rdiv. ring.
Qed.

Lemma Qin_total_in_domain (i : Inputs.t) (r : Results) :
  in_domain i -> fields_ok i r ->
  Qin_total r =
    1.005 * (Inputs.T3 i
             - (298.15 + (298.15 * Rpower (Inputs.rp i) isentropic_exponent - 298.15)
                         / Inputs.eta_comp i))
          * working_flow r.
Proof.
  intros D F. unfold Qin_total.
  rewrite (T2_in_domain i r D F), (ok_T3 i r F). reflexivity.
Qed.

(** The working flow depends on the mass split alone. *)
Lemma working_flow_in_domain (i : Inputs.t) (r : Results) :
  fields_ok i r ->
  working_flow r = Py.max 1.0 (20.0 * (Inputs.m_biomass i * (1 - Inputs.MC i))).
Proof. intros F. unfold working_flow. rewrite (ok_m_dry i r F). reflexivity. Qed.

End BraytonWork.

(** C6: two inputs of the domain that differ in [T3] alone: the larger
    [T3] gives the strictly larger [W_net_brayton]. *)
Theorem brayton_net_work_increasing (i : Inputs.t) (Ta Tb : R) :
  in_domain (with_T3 i Ta) -> in_domain (with_T3 i Tb) -> Ta < Tb ->
  exists ra rb,
    simulate (with_T3 i Ta) = Ok ra /\ simulate (with_T3 i Tb) = Ok rb /\
    W_net_brayton ra < W_net_brayton rb.
Proof.
  intros Da Db Hlt.
  destruct (simulate_in_domain _ Da) as (ra & Hra & Fa).
  destruct (simulate_in_domain _ Db) as (rb & Hrb & Fb).
  exists ra, rb. split; [assumption | split; [assumption |]].
  rewrite (W_net_brayton_in_domain _ ra Da Fa), (W_net_brayton_in_domain _ rb Db Fb).
  rewrite (working_flow_in_domain _ ra Fa), (working_flow_in_domain _ rb Fb).
  cbn [with_T3 Inputs.m_biomass Inputs.MC Inputs.rp Inputs.eta_comp
       Inputs.eta_turbine Inputs.T3].
  pose proof (isentropic_ratio_bounds (Inputs.rp i) (dom_rp _ Da)) as [Hx _].
  apply inv_ratio_bounds in Hx.
  pose proof (dom_eta_turbine _ Da) as Het. cbn in Het.
  pose proof (max_ge_l 1.0 (20.0 * (Inputs.m_biomass i * (1 - Inputs.MC i)))) as Hwf.
  set (wf := Py.max 1.0 _) in *.
  set (y := / Rpower (Inputs.rp i) isentropic_exponent) in *.
  assert (Hc : 0 < Inputs.eta_turbine i * (1 - y)) by nra.
  assert (Hstep : Inputs.eta_turbine i * (Ta * (1 - y))
                  < Inputs.eta_turbine i * (Tb * (1 - y))) by nra.
  nra.
Qed.

Lemma brayton_net_work_increasing_witness :
  exists ra rb,
    simulate (with_T3 example_inputs 1200) = Ok ra /\
    simulate (with_T3 example_inputs 1300) = Ok rb /\
    W_net_brayton ra < W_net_brayton rb.
Proof.
  apply (brayton_net_work_increasing example_inputs 1200 1300);
    [constructor; cbn; lra | constructor; cbn; lra | lra].
Defined.

(** ** Efficiencies *)

Section Efficiencies.

Lemma tiny_flow_in_domain : in_domain tiny_flow_inputs.
Proof. constructor; cbn; lra. Qed.

(** At the cold point the Brayton heat input is positive and the net
    work negative. *)
Lemma cold_brayton (r : Results) :
  simulate cold_inputs = Ok r ->
  0 < Qin_total r /\ W_net_brayton r < 0 /\ eta_brayton r < 0.
Proof.
  intros Hr. pose proof (simulate_inv _ _ Hr) as F.
  pose proof (Qin_total_in_domain _ r cold_in_domain F) as HQ.
  pose proof (W_net_brayton_in_domain _ r cold_in_domain F) as HW.
  pose proof (working_flow_pos r) as Hwf.
  cbn [cold_inputs Inputs.rp Inputs.eta_comp Inputs.eta_turbine Inputs.T3] in HQ, HW.
  assert (Hlo : 1 < Rpower 2.0 isentropic_exponent)
    by (apply Rpower_gt_1; [lra | apply isentropic_exponent_pos]).
  assert (Hhi : Rpower 2.0 isentropic_exponent < 2)
    by (apply isentropic_power_lt; lra).
  pose proof (inv_ratio_bounds _ Hlo) as Hy.
  assert (Hxy : Rpower 2.0 isentropic_exponent * / Rpower 2.0 isentropic_exponent = 1)
    by (apply Rinv_r; lra).
  set (x := Rpower 2.0 isentropic_exponent) in *.
  set (y := / x) in *.
  assert (HQpos : 0 < Qin_total r).
  { rewrite HQ. apply Rmult_lt_0_compat; [| lra]. lra. }
  assert (HWneg : W_net_brayton r < 0).
  { rewrite HW.
    assert (Hcore : 0.5 * (1000.0 * (1 - y)) - (298.15 * x - 298.15) / 0.5 < 0) by nra.
    nra. }
  repeat split; try assumption.
  rewrite (ok_eta_brayton _ r F).
  destruct (Rlt_dec 0 (Qin_total r)); [| contradiction].
  apply div_neg; assumption.
Qed.

Lemma eta_rankine_range (i : Inputs.t) (r : Results) :
  in_domain i -> fields_ok i r -> 0 <= eta_rankine r < 1.
Proof.
  intros D F. rewrite (ok_eta_rankine i r F).
  destruct (Rlt_dec 0 (Q_in_Rankine r)) as [HQ | HQ]; [| lra].
  pose proof (rankine_drop_eq i r D F) as Hdrop.
  pose proof (rankine_drop_bounds i D) as Hb.
  pose proof (W_pump_per_kg_bounds i D) as Hp.
  pose proof (m_moisture_nonneg i r D F) as Hm.
  destruct (h4_not_clamped i r D F) as [_ H4].
  pose proof (ok_h2 i r F) as H2.
  pose proof (ok_Q_in_Rankine i r F) as HQe.
  pose proof (ok_W_turb_rankine i r F) as HWt.
  pose proof (ok_W_pump i r F) as HWp.
  split.
  - apply Rmult_le_pos; [| left; apply Rinv_0_lt_compat; assumption].
    rewrite HWt, HWp, Hdrop. nra.
  - apply div_lt_1; [assumption |].
    rewrite HQe in HQ |- *. rewrite HWt, HWp, H2.
    assert (Hsteam : 0 < m_moisture r).
    { destruct Hm as [Hm | Hm]; [assumption |]. rewrite <- Hm in HQ. lra. }
    nra.
Qed.

Lemma eta_brayton_below_1 (i : Inputs.t) (r : Results) :
  in_domain i -> fields_ok i r -> eta_brayton r < 1.
Proof.
  intros D F. rewrite (ok_eta_brayton i r F).
  destruct (Rlt_dec 0 (Qin_total r)) as [HQ | HQ]; [| lra].
  apply div_lt_1; [assumption |].
  rewrite (Qin_total_in_domain i r D F) in *.
  rewrite (W_net_brayton_in_domain i r D F).
  pose proof (working_flow_pos r) as Hwf.
  pose proof (isentropic_ratio_bounds _ (dom_rp i D)) as [Hlo Hhi].
  pose proof (inv_ratio_bounds _ Hlo) as Hy.
  assert (Hxy : Rpower (Inputs.rp i) isentropic_exponent
                * / Rpower (Inputs.rp i) isentropic_exponent = 1)
    by (apply Rinv_r; lra).
  pose proof (dom_eta_turbine i D) as Het. pose proof (dom_T3 i D) as HT3.
  set (x := Rpower (Inputs.rp i) isentropic_exponent) in *.
  set (y := / x) in *.
  set (c := (298.15 * x - 298.15) / Inputs.eta_comp i) in *.
  (* the turbine outlet stays above ambient: T3 / x > T1 *)
  assert (Hout : 298.15 < Inputs.T3 i * y).
  { assert (298.15 * x < Inputs.T3 i) by lra. nra. }
  assert (Hdrop : 0 <= Inputs.T3 i * (1 - y)) by (apply Rmult_le_pos; lra).
  assert (Hturb : Inputs.eta_turbine i * (Inputs.T3 i * (1 - y))
                  <= Inputs.T3 i * (1 - y)).
  { rewrite <- (Rmult_1_l (Inputs.T3 i * (1 - y))) at 2.
    apply Rmult_le_compat_r; lra. }
  assert (Hcore : Inputs.eta_turbine i * (Inputs.T3 i * (1 - y)) - c
                  < Inputs.T3 i - (298.15 + c)) by lra.
  nra.
Qed.

End Efficiencies.

Section CombinedEfficiency.

(** With the working flow on its floor the gas turbine returns more work
    than the fuel heat that is charged to it. *)
Lemma tiny_flow_combined (r : Results) :
  simulate tiny_flow_inputs = Ok r ->
  total_input_energy r = 50 /\ 190 < useful_work r /\ 1 < eta_combined r.
Proof.
  intros Hr. pose proof (simulate_inv _ _ Hr) as F.
  pose proof (W_net_brayton_in_domain _ r tiny_flow_in_domain F) as HW.
  pose proof (working_flow_in_domain _ r F) as Hwf.
  cbn [tiny_flow_inputs Inputs.rp Inputs.eta_comp Inputs.eta_turbine Inputs.T3
       Inputs.m_biomass Inputs.MC] in HW, Hwf.
  assert (Hwf1 : working_flow r = 1).
  { rewrite Hwf. destruct (max_cases 1.0 (20.0 * (0.01 * (1 - 0)))) as [[? _] | [_ ->]]; lra. }
  assert (Hlo : 1.21 < Rpower 2.0 isentropic_exponent)
    by (apply isentropic_power_gt; lra).
  assert (Hhi : Rpower 2.0 isentropic_exponent < 1.5)
    by (apply isentropic_power_lt; lra).
  assert (Hy : 0 < / Rpower 2.0 isentropic_exponent)
    by (apply Rinv_0_lt_compat; lra).
  assert (Hxy : Rpower 2.0 isentropic_exponent * / Rpower 2.0 isentropic_exponent = 1)
    by (apply Rinv_r; lra).
  set (x := Rpower 2.0 isentropic_exponent) in *.
  set (y := / x) in *.
  assert (Hybound : y < 0.83) by nra.
  assert (HWlo : 190 < W_net_brayton r).
  { rewrite HW, Hwf1. lra. }
  assert (Hin : total_input_energy r = 50).
  { unfold total_input_energy.
    rewrite (ok_Q_in_Brayton _ r F), (ok_Q_in_Rankine _ r F),
      (ok_m_dry _ r F), (ok_m_moisture _ r F).
    unfold LHV_kJ. cbn. lra. }
  assert (Hout : 190 < useful_work r).
  { rewrite (ok_useful_work _ r F).
    pose proof (max_ge_r 0.0 (W_net_brayton r)).
    pose proof (max_ge_l 0.0 (W_turb_rankine r)). lra. }
  repeat split; try assumption.
  rewrite (ok_eta_combined _ r F), Hin.
  destruct (Rlt_dec 0 50); [| lra].
  apply div_gt_1; lra.
Qed.

End CombinedEfficiency.

(** C3 (as stated) fails at the cold point, inside the domain: the
    Brayton efficiency is negative there, neither 0 nor in [0, 1]. *)
Lemma eta_brayton_negative :
  in_domain cold_inputs /\
  exists r, simulate cold_inputs = Ok r /\
    eta_brayton r < 0 /\ ~ efficiencies_sane r.
Proof.
  split; [exact cold_in_domain |].
  destruct (simulate_total _ cold_in_domain) as [r Hr].
  exists r. destruct (cold_brayton r Hr) as (_ & _ & Hneg).
  repeat split; try assumption.
  intros (_ & [H0 | [Hge _]] & _); lra.
Qed.

(** The combined efficiency leaves the physical range on the other side:
    it exceeds 1 at the tiny-flow point, inside the domain. *)
Lemma eta_combined_above_1 :
  in_domain tiny_flow_inputs /\
  exists r, simulate tiny_flow_inputs = Ok r /\
    1 < eta_combined r /\ ~ efficiencies_sane r.
Proof.
  split; [exact tiny_flow_in_domain |].
  destruct (simulate_total _ tiny_flow_in_domain) as [r Hr].
  exists r. destruct (tiny_flow_combined r Hr) as (_ & _ & Hbig).
  repeat split; try assumption.
  intros (_ & _ & [H0 | [_ Hle]]); lra.
Qed.

(** C3 (amended): on the domain the record is returned and its three
    efficiencies are real numbers with [0 <= eta_rankine < 1],
    [eta_brayton < 1], [eta_brayton = 0] when the Brayton heat input is
    not positive, and [0 <= eta_combined]. *)
Theorem efficiencies_in_domain (i : Inputs.t) :
  in_domain i ->
  exists r, simulate i = Ok r /\
    0 <= eta_rankine r < 1 /\
    eta_brayton r < 1 /\
    (Qin_total r <= 0 -> eta_brayton r = 0) /\
    0 <= eta_combined r.
Proof.
  intros D. destruct (simulate_in_domain i D) as (r & Hr & F).
  exists r. split; [assumption |].
  split; [apply (eta_rankine_range i r D F) |].
  split; [apply (eta_brayton_below_1 i r D F) |].
  split.
  - intros HQ. rewrite (ok_eta_brayton i r F).
    destruct (Rlt_dec 0 (Qin_total r)); lra.
  - rewrite (ok_eta_combined i r F), (ok_useful_work i r F).
    apply guarded_ratio_nonneg, max_sum_nonneg.
Qed.

Lemma efficiencies_in_domain_witness :
  in_domain example_inputs /\
  exists r, simulate example_inputs = Ok r /\
    0 <= eta_rankine r < 1 /\
    eta_brayton r < 1 /\
    (Qin_total r <= 0 -> eta_brayton r = 0) /\
    0 <= eta_combined r.
Proof.
  split; [constructor; cbn; lra | apply (efficiencies_in_domain example_inputs)].
  constructor; cbn; lra.
Defined.

(** * Further properties of [run_simulation] *)

(** ** Outside the domain: which inputs raise *)

Section Faults.

Lemma truediv_zero (x : R) : x /! 0 = Raise ZeroDivisionError.
Proof.
  unfold Py.truediv. destruct (Req_dec_T 0 0); [reflexivity | contradiction].
Qed.

Lemma pow_zero_base (y : R) : 0 < y -> 0 ** y = Ok 0.
Proof.
  intros Hy. rewrite pow_nonneg_ok by lra.
  destruct (Req_dec_T 0 0); [reflexivity | contradiction].
Qed.

Lemma pow_neg_base (x y : R) : x < 0 -> y <> 0 -> x ** y = Raise ComplexResult.
Proof.
  intros Hx Hy. unfold Py.pow.
  destruct (Req_dec_T y 0); [contradiction |].
  destruct (Req_dec_T x 0); [lra |].
  destruct (Rlt_dec 0 x); [lra | reflexivity].
Qed.

Ltac open_run :=
  unfold simulate, run_simulation;
  cbn [Inputs.m_biomass Inputs.MC Inputs.LHV_MJkg
       Inputs.boiler_p Inputs.boiler_T Inputs.cond_p Inputs.rp Inputs.eta_comp
       Inputs.eta_turbine Inputs.T3];
  cbv beta zeta.

(** A zero compressor efficiency stops the run at [(T2s - T1) / eta_comp]. *)
Lemma zero_eta_comp_raises (i : Inputs.t) :
  0 <= Inputs.rp i -> Inputs.eta_comp i = 0 ->
  simulate i = Raise ZeroDivisionError.
Proof.
  destruct i as [m_biomass MC LHV boiler_p boiler_T cond_p rp eta_comp eta_turbine T3].
  cbn [Inputs.rp Inputs.eta_comp]. intros Hrp ->. open_run.
  rewrite (pow_nonneg_ok rp) by lra. rewrite bind_Ok; cbv beta.
  rewrite truediv_zero. apply bind_Raise.
Qed.

(** A zero pressure ratio passes [rp ** ...] (which is 0.0) and stops at
    [1 / rp] at the latest. *)
Lemma zero_rp_raises (i : Inputs.t) :
  Inputs.rp i = 0 -> simulate i = Raise ZeroDivisionError.
Proof.
  intros Hrp. destruct (Req_dec_T (Inputs.eta_comp i) 0) as [Hec | Hec].
  { apply zero_eta_comp_raises; [lra | assumption]. }
  destruct i as [m_biomass MC LHV boiler_p boiler_T cond_p rp eta_comp eta_turbine T3].
  cbn [Inputs.rp Inputs.eta_comp] in *. subst rp. open_run.
  rewrite pow_zero_base by lra. rewrite bind_Ok; cbv beta.
  rewrite (truediv_ok _ eta_comp) by assumption. rewrite bind_Ok; cbv beta.
  rewrite truediv_zero. apply bind_Raise.
Qed.

(** A negative turbine inlet temperature reaches the gas correlations,
    where [(T3 / 1200.0) ** 0.5] is no float any more. *)
Lemma negative_T3_leaves_floats (i : Inputs.t) :
  0 < Inputs.rp i -> Inputs.eta_comp i <> 0 -> Inputs.T3 i < 0 ->
  simulate i = Raise ComplexResult.
Proof.
  destruct i as [m_biomass MC LHV boiler_p boiler_T cond_p rp eta_comp eta_turbine T3].
  cbn [Inputs.rp Inputs.eta_comp Inputs.T3]. intros Hrp Hec HT3. open_run.
  rewrite (pow_pos_ok rp) by lra. rewrite bind_Ok; cbv beta.
  rewrite (truediv_ok _ eta_comp) by assumption. rewrite bind_Ok; cbv beta.
  rewrite (truediv_ok 1 rp) by lra. rewrite bind_Ok; cbv beta.
  rewrite (pow_pos_ok (1 / rp)) by (try apply Rdiv_lt_0_compat; lra).
  rewrite bind_Ok; cbv beta.
  do 3 (rewrite guarded_div_ok, bind_Ok; cbv beta).
  rewrite (pow_pos_ok (rp / 8.0) 0.7) by lra. rewrite bind_Ok; cbv beta.
  rewrite (pow_neg_base (T3 / 1200.0) 0.5) by lra. apply bind_Raise.
Qed.

(** The run needs nothing of the other seven inputs. *)
Lemma simulate_returns_at_zero_T3 (i : Inputs.t) :
  0 < Inputs.rp i -> Inputs.eta_comp i <> 0 -> 0 <= Inputs.T3 i ->
  exists r, simulate i = Ok r.
Proof.
  intros Hrp Hec [HT3 | HT3]; [apply simulate_returns; assumption |].
  destruct i as [m_biomass MC LHV boiler_p boiler_T cond_p rp eta_comp eta_turbine T3].
  cbn [Inputs.rp Inputs.eta_comp Inputs.T3] in *. subst T3. open_run.
  rewrite (pow_pos_ok rp) by lra. rewrite bind_Ok; cbv beta.
  rewrite (truediv_ok _ eta_comp) by assumption. rewrite bind_Ok; cbv beta.
  rewrite (truediv_ok 1 rp) by lra. rewrite bind_Ok; cbv beta.
  rewrite (pow_pos_ok (1 / rp)) by (try apply Rdiv_lt_0_compat; lra).
  rewrite bind_Ok; cbv beta.
  do 3 (rewrite guarded_div_ok, bind_Ok; cbv beta).
  rewrite (pow_pos_ok (rp / 8.0) 0.7) by lra. rewrite bind_Ok; cbv beta.
  rewrite (pow_nonneg_ok (0 / 1200.0) 0.5) by lra. rewrite bind_Ok; cbv beta.
  rewrite (pow_pos_ok (rp / 8.0) 0.8) by lra. rewrite bind_Ok; cbv beta.
  rewrite (pow_nonneg_ok (0 / 1200.0) 0.6) by lra. rewrite bind_Ok; cbv beta.
  rewrite (pow_nonneg_ok (0 / 1200.0) 0.9) by lra. rewrite bind_Ok; cbv beta.
  rewrite (pow_nonneg_ok _ 0.3);
    [ | apply Rmult_le_pos; [apply guarded_ratio_nonneg, max_sum_nonneg | lra] | lra ].
  rewrite bind_Ok; cbv beta.
  rewrite guarded_div_ok, bind_Ok; cbv beta.
  eexists. reflexivity.
Qed.

End Faults.

(** X1: for a pressure ratio that is not negative, the run raises
    [ZeroDivisionError] exactly when the pressure ratio or the compressor
    efficiency is zero; no other input can cause a division fault. *)
Theorem division_fault_iff (i : Inputs.t) :
  0 <= Inputs.rp i ->
  (simulate i = Raise ZeroDivisionError <->
   Inputs.rp i = 0 \/ Inputs.eta_comp i = 0).
Proof.
  intros Hrp. split.
  - intros Hraise.
    destruct (Req_dec_T (Inputs.rp i) 0) as [H0 | H0]; [left; assumption |].
    destruct (Req_dec_T (Inputs.eta_comp i) 0) as [Hec | Hec]; [right; assumption |].
    exfalso. destruct (Rlt_dec (Inputs.T3 i) 0) as [HT3 | HT3].
    + rewrite negative_T3_leaves_floats in Hraise by (assumption || lra).
      discriminate.
    + destruct (simulate_returns_at_zero_T3 i) as [r Hr]; try assumption; try lra.
      rewrite Hr in Hraise. discriminate.
  - intros [H0 | Hec].
    + apply zero_rp_raises. assumption.
    + apply zero_eta_comp_raises; assumption.
Qed.

Lemma division_fault_iff_witness :
  simulate (Inputs.mk 10 0.25 18 8 500 0.01 8 0 0.85 1200) = Raise ZeroDivisionError.
Proof.
  apply (proj2 (division_fault_iff (Inputs.mk 10 0.25 18 8 500 0.01 8 0 0.85 1200)
                                   ltac:(cbn; lra))).
  right. reflexivity.
Defined.

(** X2: a positive pressure ratio, a non-zero compressor efficiency and a
    turbine inlet temperature that is not negative are enough for a record,
    whatever the other seven inputs are (zero or negative flows, a zero
    heating value, any pressures): every other division is guarded. *)
Theorem returns_for_any_feedstock (i : Inputs.t) :
  0 < Inputs.rp i -> Inputs.eta_comp i <> 0 -> 0 <= Inputs.T3 i ->
  exists r, simulate i = Ok r /\ fields_ok i r /\
    (Inputs.LHV_MJkg i <= 0 -> fuel_consumption_kg_hr r = 0) /\
    (Inputs.m_biomass i = 0 ->
       eta_rankine r = 0 /\ eta_combined r = 0 /\ fuel_consumption_kg_hr r = 0).
Proof.
  intros Hrp Hec HT3.
  destruct (simulate_returns_at_zero_T3 i Hrp Hec HT3) as [r Hr].
  pose proof (simulate_inv i r Hr) as F.
  exists r. split; [assumption | split; [assumption |]].
  split.
  - intros HL. rewrite (ok_fuel i r F). unfold LHV_kJ.
    destruct (Rlt_dec 0 (Inputs.LHV_MJkg i * 1000.0)); lra.
  - intros Hm.
    assert (Hd : m_dry r = 0) by (rewrite (ok_m_dry i r F), Hm; ring).
    assert (Hw : m_moisture r = 0) by (rewrite (ok_m_moisture i r F), Hm; ring).
    assert (HQB : Q_in_Brayton r = 0) by (rewrite (ok_Q_in_Brayton i r F), Hd; ring).
    assert (HQR : Q_in_Rankine r = 0) by (rewrite (ok_Q_in_Rankine i r F), Hw; ring).
    rewrite (ok_eta_rankine i r F), (ok_eta_combined i r F), (ok_fuel i r F).
    unfold total_input_energy. rewrite HQB, HQR.
    repeat split.
    + destruct (Rlt_dec 0 0); lra.
    + destruct (Rlt_dec 0 (0 + 0)); lra.
    + destruct (Rlt_dec 0 (LHV_kJ i)); unfold Rdiv; lra.
Qed.

Lemma returns_for_any_feedstock_witness :
  exists r, simulate (Inputs.mk 0 0.25 0 8 500 0.01 8 0.88 0.85 0) = Ok r /\
    fuel_consumption_kg_hr r = 0 /\ eta_combined r = 0.
Proof.
  destruct (returns_for_any_feedstock (Inputs.mk 0 0.25 0 8 500 0.01 8 0.88 0.85 0))
    as (r & Hr & _ & HL & Hm); cbn; try lra.
  exists r. split; [exact Hr |]. cbn in HL, Hm.
  destruct (Hm eq_refl) as (_ & Hc & Hf). split; assumption.
Defined.

(** ** The Brayton cycle as a function of its four inputs *)

Section BraytonClosedForm.

Lemma ratio_scale (c a b : R) : c <> 0 -> b <> 0 -> (c * a) / (c * b) = a / b.
Proof. intros Hc Hb. field. split; assumption. Qed.

Variables (i : Inputs.t) (r : Results).
Hypothesis D : in_domain i.
Hypothesis F : fields_ok i r.

Let x := Rpower (Inputs.rp i) isentropic_exponent.
Let dT2 := (298.15 * x - 298.15) / Inputs.eta_comp i.

(** The compressor heats the air. *)
Lemma compressor_rise_pos : 0 < dT2.
Proof.
  pose proof (isentropic_ratio_bounds _ (dom_rp i D)) as [Hlo _].
  pose proof (dom_eta_comp i D). unfold dT2, x.
  apply Rdiv_lt_0_compat; lra.
Qed.

(** The turbine outlet stays between ambient and the turbine inlet. *)
Lemma turbine_outlet_bounds : 298.15 < T4 r < Inputs.T3 i.
Proof.
  rewrite (T4_in_domain i r D F).
  pose proof (isentropic_ratio_bounds _ (dom_rp i D)) as [Hlo Hhi].
  pose proof (inv_ratio_bounds _ Hlo) as Hy.
  assert (Hxy : Rpower (Inputs.rp i) isentropic_exponent
                * / Rpower (Inputs.rp i) isentropic_exponent = 1)
    by (apply Rinv_r; lra).
  pose proof (dom_eta_turbine i D) as Het. pose proof (dom_T3 i D) as HT3.
  unfold Rdiv.
  set (xx := Rpower (Inputs.rp i) isentropic_exponent) in *.
  set (y := / xx) in *.
  assert (Hout : 298.15 < Inputs.T3 i * y).
  { assert (298.15 * xx < Inputs.T3 i) by lra. nra. }
  assert (Hdrop : 0 < Inputs.T3 i - Inputs.T3 i * y) by nra.
  split; [| nra].
  assert (Inputs.eta_turbine i * (Inputs.T3 i - Inputs.T3 i * y)
          <= Inputs.T3 i - Inputs.T3 i * y); [| lra].
  rewrite <- (Rmult_1_l (Inputs.T3 i - Inputs.T3 i * y)) at 2.
  apply Rmult_le_compat_r; lra.
Qed.

(** [eta_brayton] in terms of [rp], [eta_comp], [eta_turbine] and [T3]
    alone: the working flow cancels. *)
Lemma eta_brayton_closed_form :
  eta_brayton r =
  if Rlt_dec 0 (Inputs.T3 i - (298.15 + dT2))
  then (Inputs.eta_turbine i * (Inputs.T3 i * (1 - / x)) - dT2)
       / (Inputs.T3 i - (298.15 + dT2))
  else 0.
Proof.
  rewrite (ok_eta_brayton i r F), (Qin_total_in_domain i r D F),
    (W_net_brayton_in_domain i r D F).
  pose proof (working_flow_pos r) as Hwf.
  fold x. fold dT2.
  set (wf := working_flow r) in *.
  set (B := Inputs.T3 i - (298.15 + dT2)).
  set (A := Inputs.eta_turbine i * (Inputs.T3 i * (1 - / x)) - dT2).
  replace (1.005 * (Inputs.eta_turbine i * (Inputs.T3 i * (1 - / x))) * wf
           - 1.005 * dT2 * wf) with ((1.005 * wf) * A) by (unfold A; ring).
  replace (1.005 * B * wf) with ((1.005 * wf) * B) by ring.
  assert (Hc : 0 < 1.005 * wf) by lra.
  destruct (Rlt_dec 0 (1.005 * wf * B)) as [HQ | HQ];
    destruct (Rlt_dec 0 B) as [HB | HB].
  - apply ratio_scale; lra.
  - exfalso. apply HB. nra.
  - exfalso. apply HQ. apply Rmult_lt_0_compat; assumption.
  - lra.
Qed.

End BraytonClosedForm.

(** X3: with ideal machines ([eta_comp = eta_turbine = 1]) the Brayton
    efficiency on the domain is the air-standard value
    [1 - 1 / rp^((gamma-1)/gamma)], whatever the turbine inlet temperature
    and the feedstock are. *)
Theorem ideal_brayton_efficiency (i : Inputs.t) :
  in_domain i -> Inputs.eta_comp i = 1 -> Inputs.eta_turbine i = 1 ->
  exists r, simulate i = Ok r /\
    eta_brayton r = 1 - / Rpower (Inputs.rp i) isentropic_exponent.
Proof.
  intros D Hc Ht. destruct (simulate_in_domain i D) as (r & Hr & F).
  exists r. split; [assumption |].
  rewrite (eta_brayton_closed_form i r D F), Hc, Ht.
  pose proof (isentropic_ratio_bounds _ (dom_rp i D)) as [Hlo Hhi].
  pose proof (dom_T3 i D) as HT3.
  assert (Hxy : Rpower (Inputs.rp i) isentropic_exponent
                * / Rpower (Inputs.rp i) isentropic_exponent = 1)
    by (apply Rinv_r; lra).
  set (x := Rpower (Inputs.rp i) isentropic_exponent) in *.
  set (y := / x) in *.
  destruct (Rlt_dec 0 (Inputs.T3 i - (298.15 + (298.15 * x - 298.15) / 1)))
    as [HB | HB]; [| lra].
  apply (Rmult_eq_reg_r (Inputs.T3 i - (298.15 + (298.15 * x - 298.15) / 1))); [| lra].
  unfold Rdiv at 1. rewrite Rmult_assoc, Rinv_l by lra. nra.
Qed.

Lemma ideal_brayton_efficiency_witness :
  exists r, simulate (Inputs.mk 10 0.25 18 8 500 0.01 8 1 1 1200) = Ok r /\
    eta_brayton r = 1 - / Rpower 8 isentropic_exponent.
Proof.
  apply (ideal_brayton_efficiency (Inputs.mk 10 0.25 18 8 500 0.01 8 1 1 1200));
    [constructor; cbn; lra | reflexivity | reflexivity].
Defined.

(** X4: on the domain the Brayton efficiency depends on [rp], [eta_comp],
    [eta_turbine] and [T3] only: the biomass flow, the moisture, the
    heating value and the steam inputs do not change it. *)
Theorem eta_brayton_ignores_feedstock (i j : Inputs.t) :
  in_domain i -> in_domain j ->
  Inputs.rp i = Inputs.rp j -> Inputs.eta_comp i = Inputs.eta_comp j ->
  Inputs.eta_turbine i = Inputs.eta_turbine j -> Inputs.T3 i = Inputs.T3 j ->
  exists ri rj, simulate i = Ok ri /\ simulate j = Ok rj /\
    eta_brayton ri = eta_brayton rj.
Proof.
  intros Di Dj Hrp Hc Ht HT.
  destruct (simulate_in_domain i Di) as (ri & Hri & Fi).
  destruct (simulate_in_domain j Dj) as (rj & Hrj & Fj).
  exists ri, rj. split; [assumption | split; [assumption |]].
  rewrite (eta_brayton_closed_form i ri Di Fi), (eta_brayton_closed_form j rj Dj Fj).
  rewrite Hrp, Hc, Ht, HT. reflexivity.
Qed.

Lemma eta_brayton_ignores_feedstock_witness :
  exists ri rj, simulate example_inputs = Ok ri /\
    simulate (Inputs.mk 500 0.9 5 0.1 200 1 8.0 0.88 0.85 1200.0) = Ok rj /\
    eta_brayton ri = eta_brayton rj.
Proof.
  apply (eta_brayton_ignores_feedstock example_inputs
           (Inputs.mk 500 0.9 5 0.1 200 1 8.0 0.88 0.85 1200.0));
    try reflexivity; constructor; cbn; lra.
Defined.

(** X5: on the domain the state points of the gas cycle are ordered:
    the compressor outlet is hotter than ambient, the turbine outlet lies
    strictly between ambient and the turbine inlet, and the high pressure
    is above the ambient pressure. *)
Theorem brayton_state_points (i : Inputs.t) :
  in_domain i ->
  exists r, simulate i = Ok r /\
    T1 r = 298.15 /\ T1 r < T2 r /\ T1 r < T4 r /\ T4 r < T3 r /\ P1 r < P2 r.
Proof.
  intros D. destruct (simulate_in_domain i D) as (r & Hr & F).
  exists r. split; [assumption |].
  pose proof (compressor_rise_pos i D) as Hrise. cbv zeta in Hrise.
  pose proof (turbine_outlet_bounds i r D F) as [H4lo H4hi].
  pose proof (dom_rp i D).
  rewrite (ok_T3 i r F), (ok_P2 i r F), (ok_P1 i r F), (T2_in_domain i r D F), (ok_T1 i r F).
  repeat split; lra.
Qed.

Lemma brayton_state_points_witness :
  exists r, simulate example_inputs = Ok r /\
    T1 r = 298.15 /\ T1 r < T2 r /\ T1 r < T4 r /\ T4 r < T3 r /\ P1 r < P2 r.
Proof.
  apply (brayton_state_points example_inputs). constructor; cbn; lra.
Defined.

(** ** The Rankine cycle per unit of steam *)

Section RankinePerKg.

Variables (i : Inputs.t) (r : Results).
Hypothesis D : in_domain i.
Hypothesis F : fields_ok i r.

Lemma steam_flow_pos_iff : 0 < m_moisture r <-> 0 < Inputs.MC i.
Proof.
  rewrite (ok_m_moisture i r F). pose proof (dom_m_biomass i D). pose proof (dom_MC i D).
  split; intros H1; [nra | apply Rmult_lt_0_compat; lra].
Qed.

(** Heat taken up by a unit of steam in the boiler. *)
Lemma boiler_heat_per_kg_pos : 1869 < h3 r - h2 r.
Proof.
  pose proof (h1_bounds i r F). pose proof (h3_bounds i r D F).
  pose proof (W_pump_per_kg_bounds i D). rewrite (ok_h2 i r F). lra.
Qed.

Lemma Q_in_Rankine_pos_iff : 0 < Q_in_Rankine r <-> 0 < Inputs.MC i.
Proof.
  rewrite <- steam_flow_pos_iff, (ok_Q_in_Rankine i r F).
  pose proof boiler_heat_per_kg_pos. pose proof (m_moisture_nonneg i r D F).
  split; intros H1; [nra | apply Rmult_lt_0_compat; lra].
Qed.

(** The Rankine efficiency with steam: the steam flow cancels. *)
Lemma eta_rankine_closed_form :
  0 < Inputs.MC i ->
  eta_rankine r =
    (delta_h_isentropic i * Inputs.eta_turbine i - W_pump_per_kg i)
    / (h3 r - h1 r - W_pump_per_kg i).
Proof.
  intros Hpos. rewrite (ok_eta_rankine i r F).
  pose proof boiler_heat_per_kg_pos as Hb.
  destruct (Rlt_dec 0 (Q_in_Rankine r)) as [HQp | HQn];
    [| exfalso; apply HQn, Q_in_Rankine_pos_iff, Hpos].
  rewrite (ok_Q_in_Rankine i r F), (ok_W_turb_rankine i r F), (ok_W_pump i r F),
    (rankine_drop_eq i r D F), (ok_h2 i r F).
  replace (m_moisture r * (delta_h_isentropic i * Inputs.eta_turbine i)
           - W_pump_per_kg i * m_moisture r)
    with (m_moisture r
          * (delta_h_isentropic i * Inputs.eta_turbine i - W_pump_per_kg i)) by ring.
  replace (h3 r - (h1 r + W_pump_per_kg i)) with (h3 r - h1 r - W_pump_per_kg i) by ring.
  apply ratio_scale.
  - apply steam_flow_pos_iff in Hpos. lra.
  - rewrite (ok_h2 i r F) in Hb. lra.
Qed.

(** Some heat always enters: fuel heat unless the feedstock is all
    moisture, steam heat unless it is all dry. *)
Lemma total_input_energy_pos : 0 < total_input_energy r.
Proof.
  unfold total_input_energy.
  pose proof (dom_m_biomass i D) as Hmb. pose proof (dom_MC i D) as HMC.
  pose proof (dom_LHV i D) as HL.
  pose proof boiler_heat_per_kg_pos as Hb.
  pose proof (m_moisture_nonneg i r D F) as Hm.
  rewrite (ok_Q_in_Brayton i r F), (ok_Q_in_Rankine i r F), (ok_m_dry i r F).
  unfold LHV_kJ.
  assert (HQR : 0 <= m_moisture r * (h3 r - h2 r)) by (apply Rmult_le_pos; lra).
  assert (HQB : 0 <= Inputs.m_biomass i * (1 - Inputs.MC i) * (Inputs.LHV_MJkg i * 1000.0))
    by (apply Rmult_le_pos; [apply Rmult_le_pos |]; lra).
  destruct (Rle_lt_dec (Inputs.MC i) (1 / 2)) as [Hlow | Hhigh].
  - assert (0 < Inputs.m_biomass i * (1 - Inputs.MC i) * (Inputs.LHV_MJkg i * 1000.0))
      by (apply Rmult_lt_0_compat; [apply Rmult_lt_0_compat |]; lra).
    lra.
  - assert (0 < m_moisture r * (h3 r - h2 r)).
    { apply Rmult_lt_0_compat; [| lra].
      rewrite (ok_m_moisture i r F). apply Rmult_lt_0_compat; lra. }
    lra.
Qed.

End RankinePerKg.

(** X6: on the domain the Rankine efficiency is zero exactly when there is
    no moisture, and otherwise it is the per-kilogram ratio
    [(delta_h_isentropic * eta_turbine - W_pump_per_kg) / (h3 - h1 - W_pump_per_kg)],
    in which the biomass flow and the moisture fraction do not occur. *)
Theorem eta_rankine_per_kg (i : Inputs.t) :
  in_domain i ->
  exists r, simulate i = Ok r /\
    (eta_rankine r = 0 <-> Inputs.MC i = 0) /\
    (0 < Inputs.MC i ->
     eta_rankine r =
       (delta_h_isentropic i * Inputs.eta_turbine i - W_pump_per_kg i)
       / (h3 r - h1 r - W_pump_per_kg i)).
Proof.
  intros D. destruct (simulate_in_domain i D) as (r & Hr & F).
  exists r. split; [assumption |].
  pose proof (Q_in_Rankine_pos_iff i r D F) as HQ.
  pose proof (steam_flow_pos_iff i r D F) as Hm.
  pose proof (boiler_heat_per_kg_pos i r D F) as Hb.
  pose proof (rankine_drop_eq i r D F) as Hdrop.
  pose proof (rankine_drop_bounds i D) as Hdb.
  pose proof (W_pump_per_kg_bounds i D) as Hp.
  pose proof (dom_MC i D) as HMC.
  pose proof (eta_rankine_closed_form i r D F) as Hform.
  split; [| exact Hform].
  split.
  - intros Hzero. destruct HMC as [[Hpos | Heq] _]; [| symmetry; exact Heq].
    exfalso. rewrite (Hform Hpos) in Hzero.
    rewrite (ok_h2 i r F) in Hb.
    assert (0 < (delta_h_isentropic i * Inputs.eta_turbine i - W_pump_per_kg i)
                / (h3 r - h1 r - W_pump_per_kg i))
      by (apply Rdiv_lt_0_compat; lra).
    lra.
  - intros H0. rewrite (ok_eta_rankine i r F).
    destruct (Rlt_dec 0 (Q_in_Rankine r)) as [HQp | HQn]; [| lra].
    apply HQ in HQp. lra.
Qed.

Lemma eta_rankine_per_kg_witness :
  exists r, simulate example_inputs = Ok r /\
    (eta_rankine r = 0 <-> Inputs.MC example_inputs = 0) /\
    (0 < Inputs.MC example_inputs ->
     eta_rankine r =
       (delta_h_isentropic example_inputs * Inputs.eta_turbine example_inputs
        - W_pump_per_kg example_inputs)
       / (h3 r - h1 r - W_pump_per_kg example_inputs)).
Proof.
  apply (eta_rankine_per_kg example_inputs). constructor; cbn; lra.
Defined.

(** X7: on the domain the enthalpies of the steam cycle are ordered: the
    turbine outlet lies strictly between the condenser outlet and the
    boiler outlet, the pump outlet is below the boiler outlet, and the pump
    raises the enthalpy unless the boiler pressure is below the condenser
    pressure. *)
Theorem rankine_state_points (i : Inputs.t) :
  in_domain i ->
  exists r, simulate i = Ok r /\
    h1 r < h4 r /\ h4 r < h3 r /\ h2 r < h3 r /\
    (h1 r <= h2 r <-> Inputs.cond_p i <= Inputs.boiler_p i).
Proof.
  intros D. destruct (simulate_in_domain i D) as (r & Hr & F).
  exists r. split; [assumption |].
  destruct (h4_not_clamped i r D F) as [_ H4].
  pose proof (rankine_drop_eq i r D F) as Hdrop.
  pose proof (rankine_drop_bounds i D) as Hdb.
  pose proof (boiler_heat_per_kg_pos i r D F) as Hb.
  rewrite (ok_h2 i r F) in *. unfold W_pump_per_kg in *.
  repeat split; intros; lra.
Qed.

Lemma rankine_state_points_witness :
  exists r, simulate example_inputs = Ok r /\
    h1 r < h4 r /\ h4 r < h3 r /\ h2 r < h3 r /\
    (h1 r <= h2 r <-> Inputs.cond_p example_inputs <= Inputs.boiler_p example_inputs).
Proof.
  apply (rankine_state_points example_inputs). constructor; cbn; lra.
Defined.

(** X8: the domain admits a boiler pressure below the condenser pressure.
    On the domain [total_power <= useful_work] when the boiler pressure is
    at least the condenser pressure; with the boiler pressure below it and
    some moisture, the pump work is negative and [total_power] is
    strictly above [useful_work]. *)
Theorem total_power_versus_useful_work (i : Inputs.t) :
  in_domain i ->
  exists r, simulate i = Ok r /\
    (Inputs.cond_p i <= Inputs.boiler_p i ->
       0 <= W_pump r /\ total_power r <= useful_work r) /\
    (Inputs.boiler_p i < Inputs.cond_p i -> 0 < Inputs.MC i ->
       W_pump r < 0 /\ useful_work r < total_power r).
Proof.
  intros D. destruct (simulate_in_domain i D) as (r & Hr & F).
  exists r. split; [assumption |].
  pose proof (m_moisture_nonneg i r D F) as Hm.
  destruct (W_turb_rankine_nonneg i r D F) as [Hnn _].
  pose proof (ok_brayton_power i r F) as Hb.
  pose proof (ok_rankine_power i r F) as Hk.
  pose proof (ok_useful_work i r F) as Hu.
  rewrite zero_literal in Hb, Hk, Hu.
  rewrite (ok_total_power i r F), Hu, Hb, Hk, (ok_W_pump i r F).
  unfold W_pump_per_kg.
  split.
  - intros Hp.
    assert (Hpump : 0 <= 0.00101 * (Inputs.boiler_p i - Inputs.cond_p i) * 1000.0
                         * m_moisture r) by (apply Rmult_le_pos; lra).
    split; [assumption |].
    destruct (max_cases 0 (W_turb_rankine r
                - 0.00101 * (Inputs.boiler_p i - Inputs.cond_p i) * 1000.0 * m_moisture r))
      as [[? ->] | [? ->]];
      destruct (max_cases 0 (W_turb_rankine r)) as [[? ->] | [? ->]]; lra.
  - intros Hp HMC. apply (steam_flow_pos_iff i r D F) in HMC.
    assert (Hpump : 0.00101 * (Inputs.boiler_p i - Inputs.cond_p i) * 1000.0
                    * m_moisture r < 0) by nra.
    split; [assumption |].
    destruct (max_cases 0 (W_turb_rankine r
                - 0.00101 * (Inputs.boiler_p i - Inputs.cond_p i) * 1000.0 * m_moisture r))
      as [[? ->] | [? ->]];
      destruct (max_cases 0 (W_turb_rankine r)) as [[? ->] | [? ->]]; lra.
Qed.

Lemma total_power_versus_useful_work_witness :
  exists r, simulate (Inputs.mk 10 0.25 18 0.1 500 1 8 0.88 0.85 1200) = Ok r /\
    W_pump r < 0 /\ useful_work r < total_power r.
Proof.
  destruct (total_power_versus_useful_work
              (Inputs.mk 10 0.25 18 0.1 500 1 8 0.88 0.85 1200))
    as (r & Hr & _ & Hneg); [constructor; cbn; lra |].
  exists r. split; [exact Hr |]. apply Hneg; cbn; lra.
Defined.

(** ** Energy accounting *)

(** X9: on the domain the total input energy is positive, so the guard of
    the combined efficiency never fires there:
    [eta_combined = useful_work / (Q_in_Brayton + Q_in_Rankine)], the
    reported inputs and outputs balance,
    [Q_fuel + Q_steam = useful_work + losses], and
    [losses = (1 - eta_combined) * (Q_fuel + Q_steam)]. *)
Theorem energy_balance (i : Inputs.t) :
  in_domain i ->
  exists r, simulate i = Ok r /\
    0 < Q_in_Brayton r + Q_in_Rankine r /\
    eta_combined r = useful_work r / (Q_in_Brayton r + Q_in_Rankine r) /\
    Q_fuel r + Q_steam r = useful_work r + losses r /\
    losses r = (1 - eta_combined r) * (Q_fuel r + Q_steam r).
Proof.
  intros D. destruct (simulate_in_domain i D) as (r & Hr & F).
  exists r. split; [assumption |].
  pose proof (total_input_energy_pos i r D F) as Hin. unfold total_input_energy in Hin.
  split; [assumption |].
  assert (Heta : eta_combined r = useful_work r / (Q_in_Brayton r + Q_in_Rankine r)).
  { rewrite (ok_eta_combined i r F). unfold total_input_energy.
    destruct (Rlt_dec 0 (Q_in_Brayton r + Q_in_Rankine r)); [reflexivity | contradiction]. }
  split; [assumption |].
  rewrite (ok_losses i r F), (ok_Q_fuel i r F), (ok_Q_steam i r F), Heta.
  split; [ring |].
  field. lra.
Qed.

Lemma energy_balance_witness :
  exists r, simulate example_inputs = Ok r /\
    0 < Q_in_Brayton r + Q_in_Rankine r /\
    eta_combined r = useful_work r / (Q_in_Brayton r + Q_in_Rankine r) /\
    Q_fuel r + Q_steam r = useful_work r + losses r /\
    losses r = (1 - eta_combined r) * (Q_fuel r + Q_steam r).
Proof.
  apply (energy_balance example_inputs). constructor; cbn; lra.
Defined.

(** ** Gas correlations *)

Section GasCorrelations.

Lemma Rpower_base_1 (y : R) : Rpower 1 y = 1.
Proof. unfold Rpower. rewrite ln_1, Rmult_0_r. apply exp_0. Qed.

Lemma Rpower_exp_pos (x y : R) : 0 < Rpower x y.
Proof. unfold Rpower. apply exp_pos. Qed.

(** The two gas yields of a returned record, for a positive pressure
    ratio and a positive turbine inlet temperature. *)
Lemma gas_closed_form (i : Inputs.t) (r : Results) :
  0 < Inputs.rp i -> 0 < Inputs.T3 i -> fields_ok i r ->
  gas_A r = 0.568 * Rpower (Inputs.rp i / 8.0) 0.7 * Rpower (Inputs.T3 i / 1200.0) 0.5 /\
  gas_B r = 1.716 * Rpower (Inputs.rp i / 8.0) 0.8 * Rpower (Inputs.T3 i / 1200.0) 0.6.
Proof.
  intros Hrp HT3 F.
  destruct (ok_gas_A i r F) as (a1 & a2 & Ea1 & Ea2 & ->).
  destruct (ok_gas_B i r F) as (b1 & b2 & Eb1 & Eb2 & ->).
  rewrite pow_pos_ok in Ea1, Ea2, Eb1, Eb2 by lra.
  injection Ea1 as <-. injection Ea2 as <-. injection Eb1 as <-. injection Eb2 as <-.
  split; reflexivity.
Qed.

(** A product of two powers grows with both bases. *)
Lemma power_product_mono (c a a' b b' p q : R) :
  0 < c -> 0 < p -> 0 < q -> 0 < a <= a' -> 0 < b <= b' ->
  c * Rpower a p * Rpower b q <= c * Rpower a' p * Rpower b' q /\
  (a < a' \/ b < b' -> c * Rpower a p * Rpower b q < c * Rpower a' p * Rpower b' q).
Proof.
  intros Hc Hp Hq Ha Hb.
  assert (HA : Rpower a p <= Rpower a' p) by (apply Rle_Rpower_l; lra).
  assert (HB : Rpower b q <= Rpower b' q) by (apply Rle_Rpower_l; lra).
  pose proof (Rpower_exp_pos a p). pose proof (Rpower_exp_pos a' p).
  pose proof (Rpower_exp_pos b q). pose proof (Rpower_exp_pos b' q).
  split.
  - rewrite !Rmult_assoc. apply Rmult_le_compat_l; [lra |].
    apply Rmult_le_compat; lra.
  - intros [Hlt | Hlt].
    + assert (Rpower a p < Rpower a' p) by (apply Rlt_Rpower_l; lra).
      rewrite !Rmult_assoc. apply Rmult_lt_compat_l; [lra |].
      apply Rle_lt_trans with (Rpower a p * Rpower b' q).
      * apply Rmult_le_compat_l; lra.
      * apply Rmult_lt_compat_r; lra.
    + assert (Rpower b q < Rpower b' q) by (apply Rlt_Rpower_l; lra).
      rewrite !Rmult_assoc. apply Rmult_lt_compat_l; [lra |].
      apply Rlt_le_trans with (Rpower a p * Rpower b' q).
      * apply Rmult_lt_compat_l; lra.
      * apply Rmult_le_compat_r; lra.
Qed.

End GasCorrelations.

(** X10: on the domain the yields [gas_A] and [gas_B] are positive, depend
    on [rp] and [T3] only, and grow with both: a larger (or equal) pressure
    ratio and turbine inlet temperature never give less gas, and strictly
    more when one of the two is strictly larger. *)
Theorem gas_yields_monotone (i j : Inputs.t) :
  in_domain i -> in_domain j ->
  Inputs.rp i <= Inputs.rp j -> Inputs.T3 i <= Inputs.T3 j ->
  exists ri rj, simulate i = Ok ri /\ simulate j = Ok rj /\
    0 < gas_A ri /\ 0 < gas_B ri /\
    gas_A ri <= gas_A rj /\ gas_B ri <= gas_B rj /\
    (Inputs.rp i < Inputs.rp j \/ Inputs.T3 i < Inputs.T3 j ->
     gas_A ri < gas_A rj /\ gas_B ri < gas_B rj).
Proof.
  intros Di Dj Hrp HT.
  destruct (simulate_in_domain i Di) as (ri & Hri & Fi).
  destruct (simulate_in_domain j Dj) as (rj & Hrj & Fj).
  exists ri, rj. split; [assumption | split; [assumption |]].
  pose proof (dom_rp i Di). pose proof (dom_rp j Dj).
  pose proof (dom_T3 i Di). pose proof (dom_T3 j Dj).
  destruct (gas_closed_form i ri) as [-> ->]; try assumption; try lra.
  destruct (gas_closed_form j rj) as [-> ->]; try assumption; try lra.
  destruct (power_product_mono 0.568 (Inputs.rp i / 8.0) (Inputs.rp j / 8.0)
              (Inputs.T3 i / 1200.0) (Inputs.T3 j / 1200.0) 0.7 0.5) as [HA HAs]; try lra.
  destruct (power_product_mono 1.716 (Inputs.rp i / 8.0) (Inputs.rp j / 8.0)
              (Inputs.T3 i / 1200.0) (Inputs.T3 j / 1200.0) 0.8 0.6) as [HB HBs]; try lra.
  pose proof (Rpower_exp_pos (Inputs.rp i / 8.0) 0.7).
  pose proof (Rpower_exp_pos (Inputs.T3 i / 1200.0) 0.5).
  pose proof (Rpower_exp_pos (Inputs.rp i / 8.0) 0.8).
  pose proof (Rpower_exp_pos (Inputs.T3 i / 1200.0) 0.6).
  split; [apply Rmult_lt_0_compat; [apply Rmult_lt_0_compat |]; lra |].
  split; [apply Rmult_lt_0_compat; [apply Rmult_lt_0_compat |]; lra |].
  split; [exact HA | split; [exact HB |]].
  intros Hs. split; [apply HAs | apply HBs]; destruct Hs; [left | right | left | right]; lra.
Qed.

Lemma gas_yields_monotone_witness :
  exists ri rj, simulate example_inputs = Ok ri /\
    simulate (Inputs.mk 10 0.25 18 8 500 0.01 12 0.88 0.85 1200) = Ok rj /\
    gas_A ri < gas_A rj /\ gas_B ri < gas_B rj.
Proof.
  destruct (gas_yields_monotone example_inputs
              (Inputs.mk 10 0.25 18 8 500 0.01 12 0.88 0.85 1200))
    as (ri & rj & Hi & Hj & _ & _ & _ & _ & Hs);
    try (constructor; cbn; lra); try (cbn; lra).
  exists ri, rj. split; [exact Hi | split; [exact Hj |]].
  apply Hs. left. cbn. lra.
Defined.

(** X11: the correlations are normalised at the reference point: every
    input of the domain with [rp = 8] and [T3 = 1200] gives exactly
    [gas_A = 0.568] and [gas_B = 1.716]. *)
Theorem gas_yields_at_reference (i : Inputs.t) :
  in_domain i -> Inputs.rp i = 8 -> Inputs.T3 i = 1200 ->
  exists r, simulate i = Ok r /\ gas_A r = 0.568 /\ gas_B r = 1.716.
Proof.
  intros D Hrp HT. destruct (simulate_in_domain i D) as (r & Hr & F).
  exists r. split; [assumption |].
  destruct (gas_closed_form i r) as [-> ->]; try assumption; try lra.
  rewrite Hrp, HT.
  replace (8 / 8.0) with 1 by lra. replace (1200 / 1200.0) with 1 by lra.
  rewrite !Rpower_base_1. split; lra.
Qed.

Lemma gas_yields_at_reference_witness :
  exists r, simulate (Inputs.mk 10 0.25 18 8 500 0.01 8 0.88 0.85 1200) = Ok r /\
    gas_A r = 0.568 /\ gas_B r = 1.716.
Proof.
  apply (gas_yields_at_reference (Inputs.mk 10 0.25 18 8 500 0.01 8 0.88 0.85 1200));
    [constructor; cbn; lra | reflexivity | reflexivity].
Defined.

(** X12: on the domain the methane yield and the heating load are not
    negative, and each is zero exactly when the combined efficiency is
    zero, which happens exactly when the gas turbine returns no net work
    and there is no moisture for the steam cycle. *)
Theorem methane_zero_iff (i : Inputs.t) :
  in_domain i ->
  exists r, simulate i = Ok r /\
    0 <= methane r /\ 0 <= heating_energy r /\
    (methane r = 0 <-> eta_combined r = 0) /\
    (heating_energy r = 0 <-> eta_combined r = 0) /\
    (eta_combined r = 0 <-> W_net_brayton r <= 0 /\ Inputs.MC i = 0).
Proof.
  intros D. destruct (simulate_in_domain i D) as (r & Hr & F).
  exists r. split; [assumption |].
  pose proof (dom_rp i D). pose proof (dom_T3 i D).
  assert (Hec : 0 <= eta_combined r).
  { rewrite (ok_eta_combined i r F), (ok_useful_work i r F).
    apply guarded_ratio_nonneg, max_sum_nonneg. }
  destruct (gas_closed_form i r) as [_ HgB]; try assumption; try lra.
  pose proof (Rpower_exp_pos (Inputs.rp i / 8.0) 0.8) as HpB1.
  pose proof (Rpower_exp_pos (Inputs.T3 i / 1200.0) 0.6) as HpB2.
  assert (HgBpos : 0 < gas_B r).
  { rewrite HgB. apply Rmult_lt_0_compat; [apply Rmult_lt_0_compat |]; lra. }
  destruct (ok_methane i r F) as (c1 & c2 & Ec1 & Ec2 & Hme).
  rewrite pow_pos_ok in Ec1 by lra. injection Ec1 as <-.
  rewrite pow_nonneg_ok in Ec2 by lra. injection Ec2 as <-.
  pose proof (Rpower_exp_pos (Inputs.T3 i / 1200.0) 0.9) as Hc1.
  pose proof (Rpower_exp_pos (eta_combined r / 0.5) 0.3) as Hc2.
  pose proof (ok_heating_energy i r F) as Hhe.
  assert (Hme0 : methane r = 0 <-> eta_combined r = 0).
  { rewrite Hme. destruct (Req_dec_T (eta_combined r / 0.5) 0) as [Hz | Hnz].
    - split; intros _; lra.
    - split; intros Hz; [| exfalso; apply Hnz; rewrite Hz; lra].
      exfalso.
      assert (0 < 1.029 * Rpower (Inputs.T3 i / 1200.0) 0.9
                  * Rpower (eta_combined r / 0.5) 0.3)
        by (apply Rmult_lt_0_compat; [apply Rmult_lt_0_compat |]; lra).
      lra. }
  assert (Hmepos : 0 <= methane r).
  { rewrite Hme. destruct (Req_dec_T (eta_combined r / 0.5) 0); [lra |].
    apply Rmult_le_pos; [apply Rmult_le_pos |]; lra. }
  assert (Hhe0 : heating_energy r = 0 <-> eta_combined r = 0).
  { rewrite Hhe. split; intros Hz; [| rewrite Hz; lra].
    destruct Hec as [Hpos | Heq]; [| symmetry; exact Heq].
    exfalso.
    assert (0 < 928106.3 * (eta_combined r / 0.6) * (gas_B r / 1.5))
      by (apply Rmult_lt_0_compat; [apply Rmult_lt_0_compat |]; lra).
    lra. }
  assert (Hhepos : 0 <= heating_energy r).
  { rewrite Hhe. apply Rmult_le_pos; [apply Rmult_le_pos |]; lra. }
  split; [assumption | split; [assumption | split; [assumption | split; [assumption |]]]].
  (* the combined efficiency is zero exactly when the output work is *)
  pose proof (total_input_energy_pos i r D F) as Hin.
  destruct (W_turb_rankine_nonneg i r D F) as [Hwt Hwtpos].
  pose proof (steam_flow_pos_iff i r D F) as Hsteam.
  pose proof (dom_MC i D) as HMC.
  pose proof (ok_useful_work i r F) as Hu. rewrite zero_literal in Hu.
  pose proof (max_ge_l 0 (W_net_brayton r)) as Hm1.
  pose proof (max_ge_l 0 (W_turb_rankine r)) as Hm2.
  pose proof (max_ge_r 0 (W_net_brayton r)) as Hm3.
  pose proof (max_ge_r 0 (W_turb_rankine r)) as Hm4.
  rewrite (ok_eta_combined i r F).
  destruct (Rlt_dec 0 (total_input_energy r)) as [_ | Hn]; [| contradiction].
  split.
  - intros Hz.
    assert (Hu0 : useful_work r = 0).
    { apply (Rmult_eq_reg_r (/ total_input_energy r)).
      - rewrite Rmult_0_l. exact Hz.
      - apply Rinv_neq_0_compat. lra. }
    split; [lra |].
    destruct HMC as [[Hpos | Heq] _]; [| symmetry; exact Heq].
    apply Hsteam, Hwtpos in Hpos. lra.
  - intros [Hneg Hdry].
    assert (Hwt0 : W_turb_rankine r = 0).
    { rewrite (ok_W_turb_rankine i r F), (ok_m_moisture i r F), Hdry. ring. }
    assert (Hu0 : useful_work r = 0).
    { rewrite Hu, Hwt0.
      destruct (max_cases 0 (W_net_brayton r)) as [[? ->] | [? ->]];
        destruct (max_cases 0 0) as [[? ->] | [? ->]]; lra. }
    rewrite Hu0. unfold Rdiv. ring.
Qed.

Lemma methane_zero_iff_witness :
  exists r, simulate example_inputs = Ok r /\
    0 <= methane r /\ 0 <= heating_energy r /\
    (methane r = 0 <-> eta_combined r = 0) /\
    (heating_energy r = 0 <-> eta_combined r = 0) /\
    (eta_combined r = 0 <-> W_net_brayton r <= 0 /\ Inputs.MC example_inputs = 0).
Proof.
  apply (methane_zero_iff example_inputs). constructor; cbn; lra.
Defined.

(** ** Scaling with the biomass flow *)

Section Scaling.

Lemma max0_scale (k a : R) : 0 < k -> Py.max 0 (k * a) = k * Py.max 0 a.
Proof.
  intros Hk.
  destruct (max_cases 0 (k * a)) as [[H1 ->] | [H1 ->]];
    destruct (max_cases 0 a) as [[H2 ->] | [H2 ->]]; nra.
Qed.

Variables (i : Inputs.t) (k : R) (r r' : Results).
Let i' := with_m_biomass i (k * Inputs.m_biomass i).
Hypothesis D : in_domain i.
Hypothesis D' : in_domain i'.
Hypothesis F : fields_ok i r.
Hypothesis F' : fields_ok i' r'.
Hypothesis Hk : 1 <= k.
(** the working flow of the smaller plant is above its floor *)
Hypothesis Hfloor : 1 <= 20 * m_dry r.

Lemma scaled_m_dry : m_dry r' = k * m_dry r.
Proof. rewrite (ok_m_dry i' r' F'), (ok_m_dry i r F). cbn. ring. Qed.

Lemma scaled_m_moisture : m_moisture r' = k * m_moisture r.
Proof. rewrite (ok_m_moisture i' r' F'), (ok_m_moisture i r F). cbn. ring. Qed.

Lemma scaled_working_flow :
  working_flow r = 20 * m_dry r /\ working_flow r' = k * working_flow r.
Proof.
  unfold working_flow. rewrite scaled_m_dry.
  destruct (max_cases 1.0 (20.0 * m_dry r)) as [[? ->] | [? ->]];
    destruct (max_cases 1.0 (20.0 * (k * m_dry r))) as [[? ->] | [? ->]];
    split; nra.
Qed.

Lemma scaled_W_net_brayton : W_net_brayton r' = k * W_net_brayton r.
Proof.
  rewrite (W_net_brayton_in_domain i' r' D' F'), (W_net_brayton_in_domain i r D F).
  destruct scaled_working_flow as [_ ->]. cbn. ring.
Qed.

Lemma scaled_W_turb_rankine : W_turb_rankine r' = k * W_turb_rankine r.
Proof.
  rewrite (ok_W_turb_rankine i' r' F'), (ok_W_turb_rankine i r F),
    (rankine_drop_eq i' r' D' F'), (rankine_drop_eq i r D F), scaled_m_moisture.
  unfold delta_h_isentropic. cbn. ring.
Qed.

Lemma scaled_W_pump : W_pump r' = k * W_pump r.
Proof.
  rewrite (ok_W_pump i' r' F'), (ok_W_pump i r F), scaled_m_moisture.
  unfold W_pump_per_kg. cbn. ring.
Qed.

Lemma scaled_useful_work : useful_work r' = k * useful_work r.
Proof.
  rewrite (ok_useful_work i' r' F'), (ok_useful_work i r F), !zero_literal,
    scaled_W_net_brayton, scaled_W_turb_rankine, !max0_scale by lra.
  ring.
Qed.

Lemma scaled_total_power : total_power r' = k * total_power r.
Proof.
  rewrite (ok_total_power i' r' F'), (ok_total_power i r F),
    (ok_brayton_power i' r' F'), (ok_brayton_power i r F),
    (ok_rankine_power i' r' F'), (ok_rankine_power i r F), !zero_literal,
    scaled_W_net_brayton, scaled_W_turb_rankine, scaled_W_pump.
  replace (k * W_turb_rankine r - k * W_pump r)
    with (k * (W_turb_rankine r - W_pump r)) by ring.
  rewrite !max0_scale by lra. ring.
Qed.

Lemma same_enthalpies : h1 r' = h1 r /\ h2 r' = h2 r /\ h3 r' = h3 r.
Proof.
  rewrite (ok_h2 i' r' F'), (ok_h2 i r F), (ok_h1 i' r' F'), (ok_h1 i r F),
    (ok_h3 i' r' F'), (ok_h3 i r F).
  unfold W_pump_per_kg. cbn. repeat split; reflexivity.
Qed.

Lemma scaled_total_input_energy :
  total_input_energy r' = k * total_input_energy r.
Proof.
  unfold total_input_energy.
  destruct same_enthalpies as (_ & H2 & H3).
  rewrite (ok_Q_in_Brayton i' r' F'), (ok_Q_in_Brayton i r F),
    (ok_Q_in_Rankine i' r' F'), (ok_Q_in_Rankine i r F),
    scaled_m_dry, scaled_m_moisture, H2, H3.
  unfold LHV_kJ. cbn. ring.
Qed.

Lemma scaled_eta_combined : eta_combined r' = eta_combined r.
Proof.
  rewrite (ok_eta_combined i' r' F'), (ok_eta_combined i r F).
  pose proof (total_input_energy_pos i r D F) as Hin.
  pose proof (total_input_energy_pos i' r' D' F') as Hin'.
  destruct (Rlt_dec 0 (total_input_energy r')); [| contradiction].
  destruct (Rlt_dec 0 (total_input_energy r)); [| contradiction].
  rewrite scaled_total_input_energy, scaled_useful_work.
  apply ratio_scale; lra.
Qed.

Lemma scaled_eta_brayton : eta_brayton r' = eta_brayton r.
Proof.
  rewrite (eta_brayton_closed_form i' r' D' F'), (eta_brayton_closed_form i r D F).
  reflexivity.
Qed.

Lemma scaled_eta_rankine : eta_rankine r' = eta_rankine r.
Proof.
  pose proof (dom_MC i D) as [[Hpos | Hzero] _].
  - rewrite (eta_rankine_closed_form i' r' D' F') by exact Hpos.
    rewrite (eta_rankine_closed_form i r D F) by exact Hpos.
    destruct same_enthalpies as (-> & _ & ->).
    unfold delta_h_isentropic, W_pump_per_kg. reflexivity.
  - rewrite (ok_eta_rankine i' r' F'), (ok_eta_rankine i r F),
      (ok_Q_in_Rankine i' r' F'), (ok_Q_in_Rankine i r F),
      scaled_m_moisture, (ok_m_moisture i r F), <- Hzero.
    replace (k * (Inputs.m_biomass i * 0) * (h3 r' - h2 r')) with 0 by ring.
    replace (Inputs.m_biomass i * 0 * (h3 r - h2 r)) with 0 by ring.
    destruct (Rlt_dec 0 0); [lra | reflexivity].
Qed.

End Scaling.

(** X13: the plant is linear in the biomass flow above the working-flow
    floor.  For two inputs of the domain that differ by a factor [k >= 1]
    in the biomass flow, the smaller one with [20 * m_dry >= 1]: the net
    Brayton work, the output work and the total power are multiplied by
    [k], and the three efficiencies are unchanged. *)
Theorem plant_scales_with_biomass_flow (i : Inputs.t) (k : R) :
  in_domain i ->
  in_domain (with_m_biomass i (k * Inputs.m_biomass i)) ->
  1 <= k ->
  1 <= 20 * (Inputs.m_biomass i * (1 - Inputs.MC i)) ->
  exists r r',
    simulate i = Ok r /\
    simulate (with_m_biomass i (k * Inputs.m_biomass i)) = Ok r' /\
    W_net_brayton r' = k * W_net_brayton r /\
    useful_work r' = k * useful_work r /\
    total_power r' = k * total_power r /\
    eta_brayton r' = eta_brayton r /\
    eta_rankine r' = eta_rankine r /\
    eta_combined r' = eta_combined r.
Proof.
  intros D D' Hk Hfloor.
  destruct (simulate_in_domain _ D) as (r & Hr & F).
  destruct (simulate_in_domain _ D') as (r' & Hr' & F').
  exists r, r'. split; [assumption | split; [assumption |]].
  rewrite <- (ok_m_dry i r F) in Hfloor.
  split; [apply (scaled_W_net_brayton i k r r'); assumption |].
  split; [apply (scaled_useful_work i k r r'); assumption |].
  split; [apply (scaled_total_power i k r r'); assumption |].
  split; [apply (scaled_eta_brayton i k r r'); assumption |].
  split; [apply (scaled_eta_rankine i k r r'); assumption |].
  apply (scaled_eta_combined i k r r'); assumption.
Qed.

Lemma plant_scales_with_biomass_flow_witness :
  exists r r',
    simulate example_inputs = Ok r /\
    simulate (with_m_biomass example_inputs (3 * Inputs.m_biomass example_inputs)) = Ok r' /\
    W_net_brayton r' = 3 * W_net_brayton r /\
    useful_work r' = 3 * useful_work r /\
    total_power r' = 3 * total_power r /\
    eta_brayton r' = eta_brayton r /\
    eta_rankine r' = eta_rankine r /\
    eta_combined r' = eta_combined r.
Proof.
  apply (plant_scales_with_biomass_flow example_inputs 3);
    [constructor; cbn; lra | constructor; cbn; lra | lra | cbn; lra].
Defined.

(** ** No fuel, and the condenser table *)

(** X14: a feedstock that is all moisture ([MC = 1]) burns no fuel, yet
    the working flow stays on its floor of 1 kg/s; with ideal machines the
    gas turbine then still reports a positive power. *)
Theorem power_without_fuel (i : Inputs.t) :
  in_domain i -> Inputs.MC i = 1 ->
  exists r, simulate i = Ok r /\
    Q_in_Brayton r = 0 /\ fuel_consumption_kg_hr r = 0 /\ working_flow r = 1 /\
    (Inputs.eta_comp i = 1 -> Inputs.eta_turbine i = 1 -> 0 < brayton_power r).
Proof.
  intros D HMC. destruct (simulate_in_domain i D) as (r & Hr & F).
  exists r. split; [assumption |].
  assert (Hdry : m_dry r = 0) by (rewrite (ok_m_dry i r F), HMC; ring).
  assert (HQ : Q_in_Brayton r = 0) by (rewrite (ok_Q_in_Brayton i r F), Hdry; ring).
  assert (Hwf : working_flow r = 1).
  { unfold working_flow. rewrite Hdry.
    destruct (max_cases 1.0 (20.0 * 0)) as [[? _] | [_ ->]]; lra. }
  split; [assumption |].
  split.
  { rewrite (ok_fuel i r F), HQ.
    destruct (Rlt_dec 0 (LHV_kJ i)); unfold Rdiv; lra. }
  split; [assumption |].
  intros Hc Ht.
  pose proof (W_net_brayton_in_domain i r D F) as HW.
  rewrite Hc, Ht, Hwf in HW.
  pose proof (isentropic_ratio_bounds _ (dom_rp i D)) as [Hlo Hhi].
  pose proof (inv_ratio_bounds _ Hlo) as Hy.
  assert (Hxy : Rpower (Inputs.rp i) isentropic_exponent
                * / Rpower (Inputs.rp i) isentropic_exponent = 1)
    by (apply Rinv_r; lra).
  pose proof (dom_T3 i D) as HT3.
  set (x := Rpower (Inputs.rp i) isentropic_exponent) in *.
  set (y := / x) in *.
  assert (Hout : 298.15 < Inputs.T3 i * y).
  { assert (298.15 * x < Inputs.T3 i) by lra. nra. }
  assert (Hnet : 0 < W_net_brayton r).
  { rewrite HW.
    assert (0 < (x - 1) * (Inputs.T3 i * y - 298.15)) by (apply Rmult_lt_0_compat; lra).
    nra. }
  rewrite (ok_brayton_power i r F).
  pose proof (max_ge_r 0.0 (W_net_brayton r)). lra.
Qed.

Lemma power_without_fuel_witness :
  exists r, simulate (Inputs.mk 10 1 18 8 500 0.01 8 1 1 1200) = Ok r /\
    Q_in_Brayton r = 0 /\ fuel_consumption_kg_hr r = 0 /\ 0 < brayton_power r.
Proof.
  destruct (power_without_fuel (Inputs.mk 10 1 18 8 500 0.01 8 1 1 1200))
    as (r & Hr & HQ & Hf & _ & Hp); [constructor; cbn; lra | reflexivity |].
  exists r. repeat split; try assumption. apply Hp; reflexivity.
Defined.

(** X15: the condenser enthalpy of a returned record is one of the three
    table values and never decreases when the condenser pressure
    increases. *)
Theorem h1_table_monotone (i j : Inputs.t) (ri rj : Results) :
  simulate i = Ok ri -> simulate j = Ok rj ->
  Inputs.cond_p i <= Inputs.cond_p j ->
  (h1 ri = 191.8 \/ h1 ri = 251.4 \/ h1 ri = 300) /\ h1 ri <= h1 rj.
Proof.
  intros Hi Hj Hle. apply simulate_inv in Hi, Hj.
  rewrite (ok_h1 i ri Hi), (ok_h1 j rj Hj).
  destruct (Rle_dec (Inputs.cond_p i) 0.01), (Rle_dec (Inputs.cond_p i) 0.02),
    (Rle_dec (Inputs.cond_p j) 0.01), (Rle_dec (Inputs.cond_p j) 0.02);
    split; try lra; auto; try (right; right; lra).
Qed.

Lemma h1_table_monotone_witness :
  exists ri rj,
    simulate example_inputs = Ok ri /\
    simulate (Inputs.mk 10 0.25 18 8 500 0.015 8 0.88 0.85 1200) = Ok rj /\
    h1 ri <= h1 rj.
Proof.
  destruct (simulate_total example_inputs) as [ri Hi]; [constructor; cbn; lra |].
  destruct (simulate_total (Inputs.mk 10 0.25 18 8 500 0.015 8 0.88 0.85 1200))
    as [rj Hj]; [constructor; cbn; lra |].
  exists ri, rj. split; [exact Hi | split; [exact Hj |]].
  apply (h1_table_monotone _ _ ri rj Hi Hj). cbn. lra.
Defined.

(** ** The h-s diagram *)

(** X16: on the domain every state point of the h-s diagram lies strictly
    inside the axes of the plot, [0 < s < 9] and [0 < h < 3500], and the
    entropies are ordered [s1 < s2 < s3 <= s4]. *)
Theorem hs_points_inside_axes (i : Inputs.t) :
  in_domain i ->
  exists r xs ys, simulate i = Ok r /\ hs_points i r = (xs, ys) /\
    Forall (fun s => 0 < s < 9) xs /\
    Forall (fun h => 0 < h < 3500) ys /\
    length xs = length ys /\
    (nth 0 xs 0 < nth 1 xs 0 /\ nth 1 xs 0 < nth 2 xs 0 /\ nth 2 xs 0 <= nth 3 xs 0).
Proof.
  intros D. destruct (simulate_in_domain i D) as (r & Hr & F).
  exists r. eexists. eexists. split; [exact Hr |].
  split; [reflexivity |].
  pose proof (dom_boiler_p i D). pose proof (dom_eta_turbine i D).
  pose proof (h1_bounds i r F). pose proof (h3_bounds i r D F).
  pose proof (W_pump_per_kg_bounds i D).
  pose proof (ok_h2 i r F).
  destruct (h4_not_clamped i r D F) as [_ Hh4].
  pose proof (rankine_drop_eq i r D F). pose proof (rankine_drop_bounds i D).
  split; [repeat constructor; lra |].
  split; [repeat constructor; lra |].
  split; [reflexivity |].
  cbn [nth]. repeat split; lra.
Qed.

Lemma hs_points_inside_axes_witness :
  exists r xs ys, simulate example_inputs = Ok r /\ hs_points example_inputs r = (xs, ys) /\
    Forall (fun s => 0 < s < 9) xs /\
    Forall (fun h => 0 < h < 3500) ys /\
    length xs = length ys /\
    (nth 0 xs 0 < nth 1 xs 0 /\ nth 1 xs 0 < nth 2 xs 0 /\ nth 2 xs 0 <= nth 3 xs 0).
Proof.
  apply (hs_points_inside_axes example_inputs). constructor; cbn; lra.
Defined.

(** ** The T-s diagram *)

Section TsDiagram.

Lemma ln_div_pos (a b : R) : 0 < a -> 0 < b -> ln (a / b) = ln a - ln b.
Proof.
  intros Ha Hb. unfold Rdiv.
  rewrite ln_mult by (try apply Rinv_0_lt_compat; assumption).
  rewrite ln_Rinv by assumption. ring.
Qed.

Lemma ln_le_mono (a b : R) : 0 < a -> a <= b -> ln a <= ln b.
Proof.
  intros Ha [Hlt | ->]; [left; apply ln_increasing; assumption | right; reflexivity].
Qed.

Lemma log_ratio_pos (a b : R) :
  0 < a -> 0 < b -> log_ratio a b = Some (ln a - ln b).
Proof.
  intros Ha Hb. unfold log_ratio. rewrite truediv_ok by lra.
  unfold np_log. destruct (Rlt_dec 0 (a / b)) as [_ | Hn].
  - rewrite ln_div_pos by assumption. reflexivity.
  - exfalso. apply Hn. apply Rdiv_lt_0_compat; assumption.
Qed.

(** The clamp of the diagram: a value that is at least [eps]. *)
Lemma clamp_pos (v : R) : 0 < Py.max v 1e-9.
Proof. pose proof (max_ge_r v 1e-9). lra. Qed.

Lemma clamp_inactive (v : R) : 1e-9 <= v -> Py.max v 1e-9 = v.
Proof.
  intros Hv. destruct (max_cases v 1e-9) as [[? ->] | [? ->]]; lra.
Qed.

(** The markers, with the entropies spelled out. *)
Lemma ts_points_defined_aux (r : Results) :
  exists s2 s3 s4,
    ts_points r =
      Some ([0; s2; s3; s4],
            [Py.max (T1 r) 1e-9; Py.max (T2 r) 1e-9;
             Py.max (T3 r) 1e-9; Py.max (T4 r) 1e-9]) /\
    s2 = 1.005 * (ln (Py.max (T2 r) 1e-9) - ln (Py.max (T1 r) 1e-9))
         - 0.287 * (ln (Py.max (P2 r) 1e-9) - ln (Py.max (P1 r) 1e-9)) /\
    s3 - s2 = 1.005 * ln (Py.max (T3 r) 1e-9 / Py.max (T2 r) 1e-9) /\
    s4 = 1.005 * ln (Py.max (T4 r) 1e-9 / Py.max (T1 r) 1e-9).
Proof.
  unfold ts_points. cbv zeta.
  pose proof (clamp_pos (T1 r)) as H1. pose proof (clamp_pos (T2 r)) as H2.
  pose proof (clamp_pos (T3 r)) as H3. pose proof (clamp_pos (T4 r)) as H4.
  pose proof (clamp_pos (P1 r)) as Hp1. pose proof (clamp_pos (P2 r)) as Hp2.
  rewrite !log_ratio_pos by assumption.
  rewrite !ln_div_pos by assumption.
  eexists. eexists. eexists. split; [reflexivity |].
  split; [reflexivity |]. split; ring.
Qed.

End TsDiagram.

(** X17: whatever the record holds, the clamps at [eps = 1e-9] keep every
    logarithm of the T-s diagram defined: four markers are produced, the
    first at entropy 0, and the pressure terms cancel around the cycle, so
    that [s3 - s2 = Cp ln(T3/T2)] and [s4 = Cp ln(T4/T1)] for the clamped
    temperatures. *)
Theorem ts_points_defined (r : Results) :
  exists s2 s3 s4,
    ts_points r =
      Some ([0; s2; s3; s4],
            [Py.max (T1 r) 1e-9; Py.max (T2 r) 1e-9;
             Py.max (T3 r) 1e-9; Py.max (T4 r) 1e-9]) /\
    s3 - s2 = 1.005 * ln (Py.max (T3 r) 1e-9 / Py.max (T2 r) 1e-9) /\
    s4 = 1.005 * ln (Py.max (T4 r) 1e-9 / Py.max (T1 r) 1e-9).
Proof.
  destruct (ts_points_defined_aux r) as (s2 & s3 & s4 & Hpts & _ & Hs32 & Hs4).
  exists s2, s3, s4. repeat split; assumption.
Qed.

(** X18: on the domain the clamps are inactive (the markers carry the
    temperatures of the record), and the entropies of the compressor
    outlet and of the turbine outlet are strictly positive: neither marker
    lies on the vertical through state 1. *)
Theorem ts_points_in_domain (i : Inputs.t) :
  in_domain i ->
  exists r s2 s3 s4,
    simulate i = Ok r /\
    ts_points r = Some ([0; s2; s3; s4], [T1 r; T2 r; T3 r; T4 r]) /\
    0 < s2 /\ 0 < s4 /\
    s3 - s2 = 1.005 * ln (T3 r / T2 r) /\
    (s2 < s3 <-> T2 r < T3 r).
Proof.
  intros D. destruct (simulate_in_domain i D) as (r & Hr & F).
  destruct (ts_points_defined_aux r) as (s2 & s3 & s4 & Hpts & Hs2 & Hs32 & Hs4).
  exists r, s2, s3, s4. split; [exact Hr |].
  pose proof (turbine_outlet_bounds i r D F) as [H4lo H4hi].
  pose proof (compressor_rise_pos i D) as Hrise. cbv zeta in Hrise.
  pose proof (T2_in_domain i r D F) as HT2. cbv zeta in HT2.
  pose proof (ok_T1 i r F) as HT1. pose proof (ok_T3 i r F) as HT3.
  pose proof (ok_P1 i r F) as HP1. pose proof (ok_P2 i r F) as HP2.
  pose proof (dom_rp i D) as Hrp. pose proof (dom_T3 i D) as HT3d.
  pose proof (dom_eta_comp i D) as Hec.
  rewrite HP1 in HP2.
  rewrite !clamp_inactive in * by lra.
  split; [exact Hpts |].
  (* ln (P2 / P1) = ln rp > 0 *)
  assert (HlnP : ln (P2 r) - ln (P1 r) = ln (Inputs.rp i)).
  { rewrite HP2, HP1, ln_mult by lra. ring. }
  assert (HL : 0 < ln (Inputs.rp i)).
  { rewrite <- ln_1. apply ln_increasing; lra. }
  (* T2 >= T1 * rp^e *)
  pose proof (isentropic_ratio_bounds _ Hrp) as [Hlo Hhi].
  set (x := Rpower (Inputs.rp i) isentropic_exponent) in *.
  assert (HT2x : 298.15 * x <= T2 r).
  { rewrite HT2.
    assert ((298.15 * x - 298.15) <= (298.15 * x - 298.15) / Inputs.eta_comp i).
    { apply (Rmult_le_reg_r (Inputs.eta_comp i)); [lra |].
      unfold Rdiv. rewrite Rmult_assoc, Rinv_l by lra. nra. }
    lra. }
  assert (HlnT : ln (T1 r) + isentropic_exponent * ln (Inputs.rp i) <= ln (T2 r)).
  { rewrite <- ln_Rpower. fold x. rewrite HT1, <- ln_mult by lra.
    apply ln_le_mono; [nra | exact HT2x]. }
  rewrite isentropic_exponent_eq in HlnT.
  split; [rewrite Hs2; lra |].
  split.
  { rewrite Hs4. apply Rmult_lt_0_compat; [lra |].
    rewrite ln_div_pos by lra. 
    assert (ln (T1 r) < ln (T4 r)) by (apply ln_increasing; lra). lra. }
  split; [exact Hs32 |].
  assert (HT2pos : 0 < T2 r) by lra.
  rewrite ln_div_pos in Hs32 by lra.
  split; intros Hlt.
  - apply ln_lt_inv; lra.
  - assert (ln (T2 r) < ln (T3 r)) by (apply ln_increasing; lra). lra.
Qed.

Lemma ts_points_in_domain_witness :
  exists r s2 s3 s4,
    simulate example_inputs = Ok r /\
    ts_points r = Some ([0; s2; s3; s4], [T1 r; T2 r; T3 r; T4 r]) /\
    0 < s2 /\ 0 < s4 /\
    s3 - s2 = 1.005 * ln (T3 r / T2 r) /\
    (s2 < s3 <-> T2 r < T3 r).
Proof.
  apply (ts_points_in_domain example_inputs). constructor; cbn; lra.
Defined.

(** ** Sensitivities *)

Section Sensitivities.

Lemma div_lt_num (a b d : R) : 0 < d -> a < b -> a / d < b / d.
Proof.
  intros Hd Hab. unfold Rdiv. apply Rmult_lt_compat_r; [apply Rinv_0_lt_compat |]; assumption.
Qed.

Lemma div_lt_den (n d e : R) : 0 < n -> 0 < d -> d < e -> n / e < n / d.
Proof.
  intros Hn Hd Hde. unfold Rdiv. apply Rmult_lt_compat_l; [assumption |].
  apply Rinv_lt_contravar; [apply Rmult_lt_0_compat; lra | assumption].
Qed.

(** At the default point the compressor outlet is below the turbine inlet. *)
Lemma example_Qin_total_pos (r : Results) :
  simulate example_inputs = Ok r -> 0 < Qin_total r.
Proof.
  intros Hr. pose proof (simulate_inv _ _ Hr) as F.
  rewrite (Qin_total_in_domain _ r example_in_domain F).
  pose proof (working_flow_pos r) as Hwf.
  pose proof (isentropic_ratio_bounds 8.0 ltac:(lra)) as [Hlo Hhi].
  cbn [example_inputs Inputs.rp Inputs.eta_comp Inputs.T3].
  apply Rmult_lt_0_compat; [| lra]. lra.
Qed.

End Sensitivities.

(** X19: for two inputs of the domain with moisture and the same boiler
    and condenser pressures: at equal boiler temperature the Rankine
    efficiency strictly increases with the turbine efficiency, and at
    equal turbine efficiency it strictly decreases when the boiler
    temperature increases (the heat input grows with [h3] while the
    turbine work per kilogram does not depend on the temperature). *)
Theorem eta_rankine_sensitivity (i j : Inputs.t) :
  in_domain i -> in_domain j ->
  0 < Inputs.MC i -> 0 < Inputs.MC j ->
  Inputs.boiler_p i = Inputs.boiler_p j -> Inputs.cond_p i = Inputs.cond_p j ->
  exists ri rj, simulate i = Ok ri /\ simulate j = Ok rj /\
    (Inputs.boiler_T i = Inputs.boiler_T j ->
     Inputs.eta_turbine i < Inputs.eta_turbine j ->
     eta_rankine ri < eta_rankine rj) /\
    (Inputs.eta_turbine i = Inputs.eta_turbine j ->
     Inputs.boiler_T i < Inputs.boiler_T j ->
     eta_rankine rj < eta_rankine ri).
Proof.
  intros Di Dj Hmi Hmj Hbp Hcp.
  destruct (simulate_in_domain i Di) as (ri & Hri & Fi).
  destruct (simulate_in_domain j Dj) as (rj & Hrj & Fj).
  exists ri, rj. split; [assumption | split; [assumption |]].
  rewrite (eta_rankine_closed_form i ri Di Fi Hmi), (eta_rankine_closed_form j rj Dj Fj Hmj).
  pose proof (boiler_heat_per_kg_pos i ri Di Fi) as Hbi.
  pose proof (boiler_heat_per_kg_pos j rj Dj Fj) as Hbj.
  rewrite (ok_h2 i ri Fi) in Hbi. rewrite (ok_h2 j rj Fj) in Hbj.
  pose proof (rankine_drop_bounds i Di) as Hdi.
  pose proof (rankine_drop_bounds j Dj) as Hdj.
  pose proof (W_pump_per_kg_bounds i Di) as Hpi.
  assert (Hwp : W_pump_per_kg j = W_pump_per_kg i)
    by (unfold W_pump_per_kg; rewrite Hbp, Hcp; reflexivity).
  assert (Hdh : delta_h_isentropic j = delta_h_isentropic i)
    by (unfold delta_h_isentropic; rewrite Hbp; reflexivity).
  assert (Hh1 : h1 rj = h1 ri)
    by (rewrite (ok_h1 i ri Fi), (ok_h1 j rj Fj), Hcp; reflexivity).
  pose proof (ok_h3 i ri Fi) as H3i. pose proof (ok_h3 j rj Fj) as H3j.
  pose proof (dom_boiler_p i Di) as Hbpd.
  assert (Hdhpos : 0 < delta_h_isentropic i) by (unfold delta_h_isentropic; lra).
  rewrite Hwp, Hdh, Hh1 in *.
  split.
  - intros HT Heta.
    assert (h3 rj = h3 ri) by (rewrite H3i, H3j, HT; reflexivity).
    replace (h3 rj) with (h3 ri) by congruence.
    apply div_lt_num; [lra |].
    assert (delta_h_isentropic i * Inputs.eta_turbine i
            < delta_h_isentropic i * Inputs.eta_turbine j)
      by (apply Rmult_lt_compat_l; assumption).
    lra.
  - intros Heta HT. rewrite <- Heta.
    apply div_lt_den; lra.
Qed.

Lemma eta_rankine_sensitivity_witness :
  exists ri rj,
    simulate example_inputs = Ok ri /\
    simulate (Inputs.mk 10.0 0.25 18.0 8.0 600 0.01 8.0 0.88 0.85 1200.0) = Ok rj /\
    eta_rankine rj < eta_rankine ri.
Proof.
  destruct (eta_rankine_sensitivity example_inputs
              (Inputs.mk 10.0 0.25 18.0 8.0 600 0.01 8.0 0.88 0.85 1200.0))
    as (ri & rj & Hi & Hj & _ & Hdec);
    try (constructor; cbn; lra); try (cbn; lra); try reflexivity.
  exists ri, rj. split; [exact Hi | split; [exact Hj |]].
  apply Hdec; [reflexivity | cbn; lra].
Defined.

(** X20: for two inputs of the domain with the same [rp], [eta_comp] and
    [T3], and a compressor outlet below the turbine inlet (a positive
    Brayton heat input), the Brayton efficiency strictly increases with
    the turbine efficiency. *)
Theorem eta_brayton_increases_with_eta_turbine (i j : Inputs.t) :
  in_domain i -> in_domain j ->
  Inputs.rp i = Inputs.rp j -> Inputs.eta_comp i = Inputs.eta_comp j ->
  Inputs.T3 i = Inputs.T3 j ->
  Inputs.eta_turbine i < Inputs.eta_turbine j ->
  exists ri rj, simulate i = Ok ri /\ simulate j = Ok rj /\
    (0 < Qin_total ri -> eta_brayton ri < eta_brayton rj) /\
    (Qin_total ri <= 0 -> eta_brayton ri = 0 /\ eta_brayton rj = 0).
Proof.
  intros Di Dj Hrp Hc HT Heta.
  destruct (simulate_in_domain i Di) as (ri & Hri & Fi).
  destruct (simulate_in_domain j Dj) as (rj & Hrj & Fj).
  exists ri, rj. split; [assumption | split; [assumption |]].
  rewrite (eta_brayton_closed_form i ri Di Fi), (eta_brayton_closed_form j rj Dj Fj).
  rewrite (Qin_total_in_domain i ri Di Fi).
  pose proof (working_flow_pos ri) as Hwf.
  rewrite <- Hrp, <- Hc, <- HT.
  pose proof (isentropic_ratio_bounds _ (dom_rp i Di)) as [Hlo _].
  pose proof (inv_ratio_bounds _ Hlo) as Hy.
  pose proof (dom_T3 i Di) as HT3.
  set (x := Rpower (Inputs.rp i) isentropic_exponent) in *.
  set (d := (298.15 * x - 298.15) / Inputs.eta_comp i) in *.
  set (B := Inputs.T3 i - (298.15 + d)) in *.
  assert (HA : 0 < Inputs.T3 i * (1 - / x)) by (apply Rmult_lt_0_compat; lra).
  split.
  - intros HQ.
    assert (HB : 0 < B) by nra.
    destruct (Rlt_dec 0 B) as [_ | Hn]; [| contradiction].
    apply div_lt_num; [assumption |].
    assert (Inputs.eta_turbine i * (Inputs.T3 i * (1 - / x))
            < Inputs.eta_turbine j * (Inputs.T3 i * (1 - / x)))
      by (apply Rmult_lt_compat_r; assumption).
    lra.
  - intros HQ.
    assert (HB : B <= 0) by nra.
    destruct (Rlt_dec 0 B) as [Hp | _]; [lra | split; reflexivity].
Qed.

Lemma eta_brayton_increases_with_eta_turbine_witness :
  exists ri rj,
    simulate example_inputs = Ok ri /\
    simulate (Inputs.mk 10.0 0.25 18.0 8.0 500.0 0.01 8.0 0.88 0.9 1200.0) = Ok rj /\
    eta_brayton ri < eta_brayton rj.
Proof.
  destruct (eta_brayton_increases_with_eta_turbine example_inputs
              (Inputs.mk 10.0 0.25 18.0 8.0 500.0 0.01 8.0 0.88 0.9 1200.0))
    as (ri & rj & Hi & Hj & Hinc & _);
    try (constructor; cbn; lra); try (cbn; lra); try reflexivity.
  exists ri, rj. split; [exact Hi | split; [exact Hj |]].
  apply Hinc, (example_Qin_total_pos ri Hi).
Defined.
